(** * HR dashboard: the data preparer and the indicator calculator

    A shallow embedding of [prepare_df] and of the six [k_*] indicator
    functions of [app.py], with the part of pandas they call.

    Modelling choices, all of them about the library underneath the script:
    - a table is an ordered list of named columns over a row count; a column
      is one of three kinds: [ObjCol] (dtype object: a str or a missing
      value per cell), [NumCol] (int64 and float64: binary64 values, NaN is
      the missing value; an int64 entry is held as the float of the same
      value, exact below 2^53) and [DateCol] (datetime64[ns]: nanoseconds
      since 1970-01-01, NaT is the missing value);
    - strings are byte strings; [strip] and [upper] act on the ASCII range
      as Python's [str.strip] and [str.upper] do (Python also folds letters
      and spaces outside ASCII, which is not modelled);
    - the text parsers of pandas ([to_datetime], [to_numeric]) and its cast
      of a number to a timestamp are parameters of the development; what
      pandas decides before calling them (empty strings, the NaT spellings,
      NaN) is written out;
    - dates are naive timestamps: a date text that carries a UTC offset,
      which would make pandas type the column time-zone aware, is outside
      the model;
    - "today" is an argument of [prepare_df] instead of a clock read;
    - the difference of two timestamps is checked against int64 as pandas
      checks it: line 123 raises OverflowError on a birth date more than
      2^63 nanoseconds (about 292 years) away from today. The one birth
      date exactly 2^63 nanoseconds before today, whose difference pandas
      takes for a missing one, is left outside the model ([Unmodelled]);
    - the sum of a column is numpy's pairwise summation of a float64 array
      (in order below 8 items, eight running sums from 8 items, halves
      above 128); the sum of the five cells of a row adds them in column
      order. numpy adds an int64 column exactly; the float sum of the
      model is that number as long as the partial sums stay below 2^53;
    - text columns have dtype object, as under pandas 1 and 2, which is what
      line 105 selects. *)

From Stdlib Require Import ZArith List String Ascii Bool Lia Floats DecimalString.
Import ListNotations.

Local Open Scope string_scope.
Local Open Scope Z_scope.

Set Implicit Arguments.

(** ** Python strings *)

Module PyStr.

(** [str.isspace] on one ASCII character: TAB, LF, VT, FF, CR, the four
    separators 0x1c-0x1f and the space. *)
Definition is_space (c : ascii) : bool :=
  let n := nat_of_ascii c in
  ((9 <=? n)%nat && (n <=? 13)%nat) || ((28 <=? n)%nat && (n <=? 32)%nat).

Fixpoint lstrip (s : string) : string :=
  match s with
  | EmptyString => EmptyString
  | String c r => if is_space c then lstrip r else s
  end.

Fixpoint rstrip (s : string) : string :=
  match s with
  | EmptyString => EmptyString
  | String c r =>
      match rstrip r with
      | EmptyString => if is_space c then EmptyString else String c EmptyString
      | r' => String c r'
      end
  end.

(** [s.strip()] *)
Definition strip (s : string) : string := rstrip (lstrip s).

Definition upper_char (c : ascii) : ascii :=
  let n := nat_of_ascii c in
  if ((97 <=? n)%nat && (n <=? 122)%nat) then ascii_of_nat (n - 32) else c.

(** [s.upper()] *)
Fixpoint upper (s : string) : string :=
  match s with
  | EmptyString => EmptyString
  | String c r => String (upper_char c) (upper r)
  end.

Definition is_digit (c : ascii) : bool :=
  let n := nat_of_ascii c in ((48 <=? n)%nat && (n <=? 57)%nat).

Definition digit_val (c : ascii) : Z := Z.of_nat (nat_of_ascii c) - 48.

(** The value of a non-empty string of decimal digits. *)
Fixpoint digits_acc (acc : Z) (s : string) : option Z :=
  match s with
  | EmptyString => Some acc
  | String c r =>
      if is_digit c then digits_acc (10 * acc + digit_val c) r else None
  end.

Definition digits (s : string) : option Z :=
  match s with
  | EmptyString => None
  | _ => digits_acc 0 s
  end.

End PyStr.

(** ** Timestamps and the proleptic Gregorian calendar *)

Module Calendar.

(** A [pd.Timestamp]: nanoseconds since 1970-01-01T00:00. *)
Definition timestamp := Z.

Definition NS_PER_DAY : Z := 86400 * 1000000000.

(** Whole days since the epoch ([Z.div] rounds down, as [Timedelta.days]
    and the calendar fields of a timestamp before 1970 do). *)
Definition day_number (t : timestamp) : Z := t / NS_PER_DAY.

(** Year, month and day of a day number. *)
Definition civil_from_days (z0 : Z) : Z * Z * Z :=
  let z := z0 + 719468 in
  let era := z / 146097 in
  let doe := z - era * 146097 in
  let yoe := (doe - doe / 1460 + doe / 36524 - doe / 146096) / 365 in
  let y := yoe + era * 400 in
  let doy := doe - (365 * yoe + yoe / 4 - yoe / 100) in
  let mp := (5 * doy + 2) / 153 in
  let d := doy - (153 * mp + 2) / 5 + 1 in
  let m := if mp <? 10 then mp + 3 else mp - 9 in
  (if m <=? 2 then y + 1 else y, m, d).

(** Day number of a calendar date. *)
Definition days_from_civil (y0 m d : Z) : Z :=
  let y := if m <=? 2 then y0 - 1 else y0 in
  let era := y / 400 in
  let yoe := y - era * 400 in
  let mp := if 2 <? m then m - 3 else m + 9 in
  let doy := (153 * mp + 2) / 5 + d - 1 in
  let doe := yoe * 365 + yoe / 4 - yoe / 100 + doy in
  era * 146097 + doe - 719468.

(** [t.year] and [t.month] *)
Definition year (t : timestamp) : Z :=
  let '(y, _, _) := civil_from_days (day_number t) in y.

Definition month (t : timestamp) : Z :=
  let '(_, m, _) := civil_from_days (day_number t) in m.

(** [pd.Timestamp(date(y, m, d))]: midnight of that day. *)
Definition midnight (y m d : Z) : timestamp := days_from_civil y m d * NS_PER_DAY.

(** [td.days] of a timedelta of [td] nanoseconds: whole days, rounded
    down. *)
Definition timedelta_days (td : Z) : Z := td / NS_PER_DAY.

End Calendar.

Export Calendar.

(** ** Numbers *)

(** int64 to float64, rounding to nearest even. *)
Definition Z2float (z : Z) : float := SF2Prim (binary_normalize prec emax z 0 false).

(** A Python number as the indicators return it: [int] or [float]. *)
Inductive pynum : Type :=
| PInt (z : Z)
| PFloat (x : float).

(** ** Outcomes *)

Inductive exn : Type :=
| AttributeError   (** [.str] on a column that holds no text *)
| KeyError         (** a column that is not in the table *)
| TypeError        (** a reduction the dtype does not support *)
| OverflowError    (** a difference of dates that does not fit int64 *)
| Unmodelled.      (** a pandas behaviour outside this model *)

Inductive result (A : Type) : Type :=
| Ok (a : A)
| Raise (e : exn).

Arguments Ok {A} a.
Arguments Raise {A} e.

Definition bind {A B : Type} (r : result A) (k : A -> result B) : result B :=
  match r with
  | Ok a => k a
  | Raise e => Raise e
  end.

Notation "x <- r ;; k" := (bind r (fun x => k))
  (at level 61, r at next level, right associativity).

(** ** Columns and tables *)

Inductive column : Type :=
| ObjCol (l : list (option string))
| NumCol (l : list float)
| DateCol (l : list (option timestamp)).

Definition col_len (c : column) : nat :=
  match c with
  | ObjCol l => List.length l
  | NumCol l => List.length l
  | DateCol l => List.length l
  end.

Definition is_object (c : column) : bool :=
  match c with ObjCol _ => true | _ => false end.

Record DataFrame : Type := mkDF {
  nrows : nat;
  columns : list (string * column)
}.

(** [df[c]] when [c in df.columns], [None] otherwise. *)
Fixpoint alist_get (c : string) (cols : list (string * column)) : option column :=
  match cols with
  | [] => None
  | (k, v) :: r => if String.eqb c k then Some v else alist_get c r
  end.

(** [df[c] = v]: an existing column is replaced where it stands, a new one is
    appended. *)
Fixpoint alist_set (c : string) (v : column) (cols : list (string * column))
  : list (string * column) :=
  match cols with
  | [] => [(c, v)]
  | (k, w) :: r => if String.eqb c k then (k, v) :: r else (k, w) :: alist_set c v r
  end.

Definition df_get (df : DataFrame) (c : string) : option column :=
  alist_get c (columns df).

Definition df_set (df : DataFrame) (c : string) (v : column) : DataFrame :=
  mkDF (nrows df) (alist_set c v (columns df)).

(** [if c in df.columns: df[c] = f(df[c])] *)
Definition df_update (df : DataFrame) (c : string) (f : column -> column) : DataFrame :=
  match df_get df c with
  | Some v => df_set df c (f v)
  | None => df
  end.

(** [df[c]], raising [KeyError] on a missing column. *)
Definition getitem (df : DataFrame) (c : string) : result column :=
  match df_get df c with
  | Some v => Ok v
  | None => Raise KeyError
  end.

(** A table as the spreadsheet reader builds it: distinct column names, every
    column as long as the table. *)
Definition wf (df : DataFrame) : Prop :=
  NoDup (map fst (columns df)) /\
  Forall (fun kv => col_len (snd kv) = nrows df) (columns df).

(** ** The pandas operations the script calls *)

(** The spellings pandas reads as a missing date. *)
Definition nat_strings : list string := ["NaT"; "nat"; "NAT"; "nan"; "NaN"; "NAN"].

Definition mem_string (s : string) (l : list string) : bool :=
  existsb (String.eqb s) l.

(** [float('nan')], and the test pandas uses for it. *)
Definition NaN : float := PrimFloat.nan.
Definition isnan (x : float) : bool := PrimFloat.is_nan x.

(** [iNaT], the int64 behind NaT. *)
Definition iNaT : Z := - 2 ^ 63.

(** A Series of integers with missing entries, as pandas stores it: the
    float of each integer, NaN where the entry is missing. *)
Definition int_series (l : list (option Z)) : column :=
  NumCol (map (fun o => match o with Some z => Z2float z | None => NaN end) l).

(** [s.astype(str)] on an object column: the text of every cell; the text of
    the missing value is "nan". *)
Definition astype_str (l : list (option string)) : list (option string) :=
  map (fun o => match o with Some s => Some s | None => Some "nan" end) l.

(** [s.str.strip()]: missing cells stay missing. *)
Definition str_strip (l : list (option string)) : list (option string) :=
  map (option_map PyStr.strip) l.

(** [s.str.upper()]: only a text column has the [.str] accessor. *)
Definition str_upper (c : column) : result (list (option string)) :=
  match c with
  | ObjCol l => Ok (map (option_map PyStr.upper) l)
  | _ => Raise AttributeError
  end.

Fixpoint dict_get (k : string) (d : list (string * string)) : option string :=
  match d with
  | [] => None
  | (k', v) :: r => if String.eqb k k' then Some v else dict_get k r
  end.

(** [s.replace(d)]: a cell equal to a key becomes the key's value. *)
Definition replace (d : list (string * string)) (l : list (option string))
  : list (option string) :=
  map (option_map (fun s => match dict_get s d with Some v => v | None => s end)) l.

(** [s.fillna(v)] on floats. *)
Definition fillna (v : float) (l : list float) : list float :=
  map (fun x => if isnan x then v else x) l.

(** [s.notna()] *)
Definition notna (c : column) : list bool :=
  match c with
  | ObjCol l => map (fun o => match o with Some _ => true | None => false end) l
  | NumCol l => map (fun x => negb (isnan x)) l
  | DateCol l => map (fun o => match o with Some _ => true | None => false end) l
  end.

(** [np.where(mask, a, b)] with two strings. *)
Definition np_where (mask : list bool) (a b : string) : list (option string) :=
  map (fun m : bool => Some (if m then a else b)) mask.

(** [s == v] for a string [v]: false on missing cells and on columns that
    hold no text. *)
Definition eq_scalar (c : column) (v : string) : list bool :=
  match c with
  | ObjCol l => map (fun o => match o with Some s => String.eqb s v | None => false end) l
  | NumCol l => map (fun _ => false) l
  | DateCol l => map (fun _ => false) l
  end.

(** [int(mask.sum())] *)
Definition count_true (mask : list bool) : Z :=
  Z.of_nat (List.length (filter (fun b : bool => b) mask)).

(** Rows of a list kept by a boolean mask. *)
Fixpoint select {A : Type} (mask : list bool) (l : list A) : list A :=
  match mask, l with
  | m :: ms, x :: xs => if m then x :: select ms xs else select ms xs
  | _, _ => []
  end.

(** [d.loc[mask, c]] once the column is at hand. *)
Definition loc (mask : list bool) (c : column) : column :=
  match c with
  | ObjCol l => ObjCol (select mask l)
  | NumCol l => NumCol (select mask l)
  | DateCol l => DateCol (select mask l)
  end.

(** Sum of a few floats skipping NaN, in order from 0.0, every NaN counting
    as 0.0: what numpy does along a row of fewer than 8 cells. *)
Definition nansum (l : list float) : float :=
  fold_left (fun acc x => (acc + (if isnan x then 0 else x))%float) l 0%float.

(** *** numpy's sum of a float64 array

    [np.add.reduce] on a contiguous array is the pairwise summation of
    numpy's [pairwise_sum], added to the initial value 0.0. *)

(** Blocks of 8 to 128 items: eight running sums [r0 .. r7], each taking
    every eighth item; they are combined in pairs once fewer than eight
    items are left, and those items are then added in order. *)
Fixpoint pairwise_block (r0 r1 r2 r3 r4 r5 r6 r7 : float) (l : list float) : float :=
  match l with
  | a0 :: a1 :: a2 :: a3 :: a4 :: a5 :: a6 :: a7 :: rest =>
      pairwise_block (r0 + a0) (r1 + a1) (r2 + a2) (r3 + a3)
                     (r4 + a4) (r5 + a5) (r6 + a6) (r7 + a7) rest
  | _ =>
      fold_left PrimFloat.add l
        (((r0 + r1) + (r2 + r3)) + ((r4 + r5) + (r6 + r7)))
  end%float.

(** Up to 128 items: fewer than 8 are added in order, starting from -0.0
    (older releases start from 0.0; added to 0.0 the total is the same). *)
Definition pairwise_small (l : list float) : float :=
  match l with
  | a0 :: a1 :: a2 :: a3 :: a4 :: a5 :: a6 :: a7 :: rest =>
      pairwise_block a0 a1 a2 a3 a4 a5 a6 a7 rest
  | _ => fold_left PrimFloat.add l neg_zero
  end.

Definition PW_BLOCKSIZE : nat := 128.

(** Above 128 items the array is cut in two near the middle, at a multiple
    of 8, and the sums of the two parts are added. [fuel] bounds the depth
    of the cuts; the length of the list is enough ([pairwise_sum_fuel]). *)
Fixpoint pairwise_sum (fuel : nat) (l : list float) : float :=
  match fuel with
  | S f =>
      let n := List.length l in
      if (PW_BLOCKSIZE <? n)%nat then
        let n2 := (n / 2 - (n / 2) mod 8)%nat in
        (pairwise_sum f (firstn n2 l) + pairwise_sum f (skipn n2 l))%float
      else pairwise_small l
  | O => pairwise_small l
  end.

(** [a.sum()] on a float64 array without NaN. *)
Definition np_sum (l : list float) : float :=
  (0 + pairwise_sum (List.length l) l)%float.

(** [s.sum()] on the cells of a numeric column: pandas puts 0.0 in the
    place of every NaN, then numpy adds. *)
Definition column_sum (l : list float) : float := np_sum (fillna 0%float l).

(** [s.sum()]. The sum of an empty object column is the integer 0; the sum
    of text is outside the model; dates have no sum. *)
Definition series_sum (c : column) : result pynum :=
  match c with
  | NumCol l => Ok (PFloat (column_sum l))
  | ObjCol [] => Ok (PInt 0)
  | ObjCol _ => Raise Unmodelled
  | DateCol _ => Raise TypeError
  end.

(** [float(x)] on a Python number. *)
Definition py_float (x : pynum) : float :=
  match x with
  | PInt z => Z2float z
  | PFloat f => f
  end.

(** [float(s.mean())]: the sum of the column, 0.0 standing for every NaN,
    over the count of the cells that are not NaN; NaN when there is none;
    the mean of dates is a date, which [float] refuses. *)
Definition mean_float (c : column) : result float :=
  match c with
  | NumCol l =>
      let xs := filter (fun x => negb (isnan x)) l in
      match xs with
      | [] => Ok NaN
      | _ => Ok (column_sum l / Z2float (Z.of_nat (List.length xs)))%float
      end
  | ObjCol [] => Ok NaN
  | ObjCol _ => Raise Unmodelled
  | DateCol _ => Raise TypeError
  end.

(** [today - s] on a date column. pandas adds the int64 nanoseconds of
    every date that is not NaT to those of [-today] with an overflow check,
    then negates the sums. *)
Definition INT64_MAX : Z := 2 ^ 63 - 1.

(** The sum leaves int64: [OverflowError]. *)
Definition overflows (today b : timestamp) : bool :=
  (b - today <? iNaT) || (INT64_MAX <? b - today).

(** The sum is an int64 other than the pattern of NaT: a timedelta. *)
Definition reachable (today b : timestamp) : bool :=
  (iNaT <? b - today) && (b - today <=? INT64_MAX).

Definition some_date (p : timestamp -> bool) (l : list (option timestamp)) : bool :=
  existsb (fun o => match o with Some b => p b | None => false end) l.

Definition all_dates (p : timestamp -> bool) (l : list (option timestamp)) : bool :=
  forallb (fun o => match o with Some b => p b | None => true end) l.

(** The timedeltas of a column in nanoseconds, NaT where the date is NaT,
    when every difference is a timedelta. *)
Definition deltas (today : timestamp) (l : list (option timestamp)) : list (option Z) :=
  map (option_map (fun b => today - b)) l.

(** [today - s]. A date exactly 2^63 ns before [today] gives the pattern of
    NaT as its sum, which pandas stores without complaint and later reads
    as a missing difference: that single date is left out of the model. *)
Definition rsub_dates (today : timestamp) (l : list (option timestamp))
  : result (list (option Z)) :=
  if some_date (overflows today) l then Raise OverflowError
  else if all_dates (reachable today) l then Ok (deltas today l)
  else Raise Unmodelled.

(** [df[names].sum(axis=1)] on numeric columns: row [i] adds the [i]-th cell
    of every column, in column order. *)
Fixpoint numeric_payloads (cs : list column) : result (list (list float)) :=
  match cs with
  | [] => Ok []
  | NumCol l :: r => ls <- numeric_payloads r ;; Ok (l :: ls)
  | _ :: _ => Raise TypeError
  end.

Definition row_cells (i : nat) (cols : list (list float)) : list float :=
  map (fun l => nth i l NaN) cols.

Definition sum_axis1 (n : nat) (cols : list (list float)) : list float :=
  map (fun i => nansum (row_cells i cols)) (seq 0 n).

Fixpoint getitems (df : DataFrame) (names : list string) : result (list column) :=
  match names with
  | [] => Ok []
  | c :: r => v <- getitem df c ;; vs <- getitems df r ;; Ok (v :: vs)
  end.

(** [df.select_dtypes(include="object")]: the text columns, in table order. *)
Definition select_dtypes_object (df : DataFrame) : list (string * list (option string)) :=
  flat_map (fun kv => match snd kv with
                      | ObjCol l => [(fst kv, l)]
                      | _ => []
                      end) (columns df).

(** What lines 105-106 do to one column. *)
Definition trim_col (c : column) : column :=
  match c with
  | ObjCol l => ObjCol (str_strip (astype_str l))
  | _ => c
  end.

Section Preparer.

(** pandas' date parser under [dayfirst=True]: the timestamp a text
    denotes, [None] for a text that is no date. Its first argument is the
    column the text stands in: pandas 2 settles on one format for a column
    from the first date it finds there, pandas 1 reads each cell alone. *)
Variable parse_datetime : list (option string) -> string -> option timestamp.

(** pandas' number parser: the float a text denotes, [None] for a text
    that is no number. *)
Variable parse_number : string -> option float.

(** pandas' reading of a number as nanoseconds since the epoch, [None]
    when it is out of the bounds of a timestamp. *)
Variable epoch_cast : float -> option timestamp.

(** One text cell under [pd.to_datetime(..., errors="coerce")]. *)
Definition to_datetime_str (ctx : list (option string)) (s : string)
  : option timestamp :=
  if String.eqb s "" || mem_string s nat_strings then None
  else parse_datetime ctx s.

(** [pd.to_datetime(s, dayfirst=True, errors="coerce")] *)
Definition to_datetime (c : column) : list (option timestamp) :=
  match c with
  | ObjCol l => map (fun o => match o with
                              | Some s => to_datetime_str l s
                              | None => None
                              end) l
  | NumCol l => map (fun x => if isnan x then None else epoch_cast x) l
  | DateCol l => l
  end.

(** One text cell under [pd.to_numeric(..., errors="coerce")]: NaN for the
    empty text and for a text that is no number. *)
Definition to_numeric_str (s : string) : float :=
  if String.eqb s "" then NaN
  else match parse_number s with
       | Some x => x
       | None => NaN
       end.

(** [pd.to_numeric(s, errors="coerce")]; a date column is read as its
    int64 nanoseconds. *)
Definition to_numeric (c : column) : list float :=
  match c with
  | ObjCol l => map (fun o => match o with
                              | Some s => to_numeric_str s
                              | None => NaN
                              end) l
  | NumCol l => l
  | DateCol l => map (fun o => match o with
                               | Some t => Z2float t
                               | None => Z2float iNaT
                               end) l
  end.

Definition DATE_COLS : list string :=
  ["Data de Nascimento"; "Data de Contratacao"; "Data de Demissao"].

Definition MONEY_COLS : list string :=
  ["Salario Base"; "Impostos"; "Beneficios"; "VT"; "VR"].

Definition SEXO_MAP : list (string * string) :=
  [("MASCULINO", "M"); ("FEMININO", "F")].

(** Lines 105-106: every text column is replaced by its stripped text. The
    loop reads each column from the selection, which is the column of the
    table as long as names are distinct. *)
Definition trim_step (df : DataFrame) : DataFrame :=
  fold_left (fun d kv => df_set d (fst kv) (ObjCol (str_strip (astype_str (snd kv)))))
            (select_dtypes_object df) df.

(** Lines 108-110. *)
Definition date_step (df : DataFrame) : DataFrame :=
  fold_left (fun d c => df_update d c (fun v => DateCol (to_datetime v)))
            DATE_COLS df.

(** Line 113, on the column alone. *)
Definition sexo_canon (c : column) : result column :=
  u <- str_upper c ;; Ok (ObjCol (replace SEXO_MAP u)).

(** Lines 112-113. *)
Definition sexo_step (df : DataFrame) : result DataFrame :=
  match df_get df "Sexo" with
  | Some v => v' <- sexo_canon v ;; Ok (df_set df "Sexo" v')
  | None => Ok df
  end.

(** Lines 116-118, for one column name. *)
Definition money_col_step (df : DataFrame) (col : string) : DataFrame :=
  let df1 := match df_get df col with
             | None => df_set df col (NumCol (repeat 0%float (nrows df)))
             | Some _ => df
             end in
  match df_get df1 col with
  | Some v => df_set df1 col (NumCol (fillna 0%float (to_numeric v)))
  | None => df1
  end.

(** Lines 115-118. *)
Definition money_step (df : DataFrame) : DataFrame :=
  fold_left money_col_step MONEY_COLS df.

(** [(td.dt.days // 365).clip(lower=0)] on the timedeltas [td] of a
    column. The integer steps are taken on integers and stored as floats; a
    day count is far below 2^53, so nothing is rounded. *)
Definition idade_values (tds : list (option Z)) : list (option Z) :=
  let days := map (option_map timedelta_days) tds in
  let years := map (option_map (fun d => d / 365)) days in
  map (option_map (Z.max 0)) years.

(** Lines 122-123. *)
Definition idade_step (today : timestamp) (df : DataFrame) : result DataFrame :=
  match df_get df "Data de Nascimento" with
  | Some (DateCol l) =>
      tds <- rsub_dates today l ;;
      Ok (df_set df "Idade" (int_series (idade_values tds)))
  | Some _ => Raise TypeError
  | None => Ok df
  end.

(** Lines 126-128 on the dates of a column. *)
Definition meses_values (today : timestamp) (l : list (option timestamp))
  : list (option Z) :=
  let meses := map (option_map (fun t =>
                 (year today - year t) * 12 + (month today - month t))) l in
  map (option_map (Z.max 0)) meses.

(** Lines 125-128. *)
Definition tempo_step (today : timestamp) (df : DataFrame) : result DataFrame :=
  match df_get df "Data de Contratacao" with
  | Some (DateCol l) =>
      Ok (df_set df "Tempo de Casa (meses)" (int_series (meses_values today l)))
  | Some _ => Raise TypeError
  | None => Ok df
  end.

(** Lines 130-133. *)
Definition status_step (df : DataFrame) : DataFrame :=
  match df_get df "Data de Demissao" with
  | Some v => df_set df "Status" (ObjCol (np_where (notna v) "Desligado" "Ativo"))
  | None => df_set df "Status" (ObjCol (repeat (Some "Ativo") (nrows df)))
  end.

(** Line 135. *)
Definition custo_step (df : DataFrame) : result DataFrame :=
  cs <- getitems df MONEY_COLS ;;
  ls <- numeric_payloads cs ;;
  Ok (df_set df "Custo Total Mensal" (NumCol (sum_axis1 (nrows df) ls))).

(** [prepare_df], lines 104-136. *)
Definition prepare_df (today : timestamp) (df : DataFrame) : result DataFrame :=
  let df := trim_step df in
  let df := date_step df in
  df <- sexo_step df ;;
  let df := money_step df in
  df <- idade_step today df ;;
  df <- tempo_step today df ;;
  let df := status_step df in
  custo_step df.

(** *** The prepared table, column by column

    What [prepare_df] leaves under each name, written from the raw table.
    [prepare_df_get] proves that the steps above compute exactly this. *)

(** A money column after lines 116-118, from the column found (or not)
    under its name. *)
Definition money_values (n : nat) (oc : option column) : list float :=
  fillna 0%float (to_numeric (match oc with
                              | Some v => v
                              | None => NumCol (repeat 0%float n)
                              end)).

Definition trimmed (raw : DataFrame) (c : string) : option column :=
  option_map trim_col (df_get raw c).

(** The birth dates line 123 subtracts from today: the parsed column, none
    when the table has no birth-date column. *)
Definition birth_dates (raw : DataFrame) : list (option timestamp) :=
  match trimmed raw "Data de Nascimento" with
  | Some v => to_datetime v
  | None => []
  end.

Definition prepared_col (today : timestamp) (raw : DataFrame) (c : string)
  : option column :=
  let n := nrows raw in
  if String.eqb c "Custo Total Mensal" then
    Some (NumCol (sum_axis1 n (map (fun m => money_values n (trimmed raw m)) MONEY_COLS)))
  else if String.eqb c "Status" then
    match trimmed raw "Data de Demissao" with
    | Some v => Some (ObjCol (np_where (notna (DateCol (to_datetime v))) "Desligado" "Ativo"))
    | None => Some (ObjCol (repeat (Some "Ativo") n))
    end
  else if String.eqb c "Tempo de Casa (meses)" then
    match trimmed raw "Data de Contratacao" with
    | Some v => Some (int_series (meses_values today (to_datetime v)))
    | None => trimmed raw c
    end
  else if String.eqb c "Idade" then
    match trimmed raw "Data de Nascimento" with
    | Some v => Some (int_series (idade_values (deltas today (to_datetime v))))
    | None => trimmed raw c
    end
  else if mem_string c MONEY_COLS then
    Some (NumCol (money_values n (trimmed raw c)))
  else if String.eqb c "Sexo" then
    match trimmed raw c with
    | Some (ObjCol l) => Some (ObjCol (replace SEXO_MAP (map (option_map PyStr.upper) l)))
    | other => other
    end
  else if mem_string c DATE_COLS then
    option_map (fun v => DateCol (to_datetime v)) (trimmed raw c)
  else trimmed raw c.

End Preparer.

(** ** The indicators, lines 180-186 *)

Definition k_headcount_ativo (d : DataFrame) : result pynum :=
  st <- getitem d "Status" ;;
  Ok (PInt (count_true (eq_scalar st "Ativo"))).

Definition k_desligados (d : DataFrame) : result pynum :=
  st <- getitem d "Status" ;;
  Ok (PInt (count_true (eq_scalar st "Desligado"))).

Definition k_folha (d : DataFrame) : result pynum :=
  st <- getitem d "Status" ;;
  sal <- getitem d "Salario Base" ;;
  s <- series_sum (loc (eq_scalar st "Ativo") sal) ;;
  Ok (PFloat (py_float s)).

Definition k_custo_total (d : DataFrame) : result pynum :=
  st <- getitem d "Status" ;;
  c <- getitem d "Custo Total Mensal" ;;
  s <- series_sum (loc (eq_scalar st "Ativo") c) ;;
  Ok (PFloat (py_float s)).

Definition k_idade_media (d : DataFrame) : result pynum :=
  match df_get d "Idade" with
  | Some c => m <- mean_float c ;; Ok (PFloat m)
  | None => Ok (PInt 0)
  end.

Definition k_avaliacao_media (d : DataFrame) : result pynum :=
  match df_get d "Avaliação do Funcionário" with
  | Some c => m <- mean_float c ;; Ok (PFloat m)
  | None => Ok (PInt 0)
  end.

(** ** Views used to state the properties *)

(** The payload selected under a name by [select_dtypes_object]. *)
Fixpoint sel_get (c : string) (sel : list (string * list (option string)))
  : option (list (option string)) :=
  match sel with
  | [] => None
  | (k, l) :: r => if String.eqb c k then Some l else sel_get c r
  end.

(** The names [prepare_df] writes under: the recognised input columns and
    the derived ones. *)
Definition DERIVED_COLS : list string :=
  ["Idade"; "Tempo de Casa (meses)"; "Status"; "Custo Total Mensal"].

Definition RECOGNISED_COLS : list string :=
  ["Data de Nascimento"; "Data de Contratacao"; "Data de Demissao"; "Sexo";
   "Salario Base"; "Impostos"; "Beneficios"; "VT"; "VR"].

(** Cell [i] of a column, by kind. *)
Definition obj_cell (c : column) (i : nat) : option (option string) :=
  match c with ObjCol l => nth_error l i | _ => None end.

Definition num_cell (c : column) (i : nat) : option float :=
  match c with NumCol l => nth_error l i | _ => None end.

Definition date_cell (c : column) (i : nat) : option (option timestamp) :=
  match c with DateCol l => nth_error l i | _ => None end.

(** ** Reference parsers

    Small executable instances of the three parameters, used to run the
    preparer on concrete tables: day/month/year dates written DD/MM/YYYY,
    decimal integers with an optional minus sign, and the integer part of a
    finite number as nanoseconds. pandas accepts more spellings than these. *)

Module Reference.

Definition parse_dmy (s : string) : option timestamp :=
  if negb (Nat.eqb (String.length s) 10) then None else
  match String.get 2 s, String.get 5 s with
  | Some "/"%char, Some "/"%char =>
      match PyStr.digits (String.substring 0 2 s),
            PyStr.digits (String.substring 3 2 s),
            PyStr.digits (String.substring 6 4 s) with
      | Some d, Some m, Some y =>
          let '(y', m', d') := civil_from_days (days_from_civil y m d) in
          if (y' =? y) && (m' =? m) && (d' =? d) then Some (midnight y m d)
          else None
      | _, _, _ => None
      end
  | _, _ => None
  end.

Definition parse_decimal (s : string) : option float :=
  match s with
  | String "-"%char r => option_map (fun z => Z2float (- z)) (PyStr.digits r)
  | _ => option_map Z2float (PyStr.digits s)
  end.

Definition trunc_cast (x : float) : option timestamp :=
  match Prim2SF x with
  | S754_zero _ => Some 0
  | S754_finite sg m e =>
      let v := if 0 <=? e then Z.pos m * 2 ^ e else Z.pos m / 2 ^ (- e) in
      if v <? 2 ^ 63 then Some (if sg then - v else v) else None
  | _ => None
  end.

(** The preparer under the reference parsers. *)
Definition prepare (today : timestamp) (df : DataFrame) : result DataFrame :=
  prepare_df (fun _ => parse_dmy) parse_decimal trunc_cast today df.

(** 4 November 2026. *)
Definition a_today : timestamp := midnight 2026 11 4.

End Reference.

(** ** The specification's wording of two steps *)

(** Sex code of one text: upper case, then "M" and "F" for the two long
    spellings, the upper-cased text otherwise. *)
Definition sexo_text (s : string) : string :=
  let u := PyStr.upper s in
  if String.eqb u "MASCULINO" then "M"
  else if String.eqb u "FEMININO" then "F"
  else u.



(** ** Sample tables *)

Module Samples.

Import Reference.

(** Three employees: text dates, one of them unreadable, one in the
    future; a termination column with missing cells; a text salary column
    with one unreadable cell; and a column the script does not know. *)
Definition staff : DataFrame :=
  mkDF 3 [("Data de Nascimento",
           ObjCol [Some "15/03/1990"; Some "not-a-date"; Some "01/01/2030"]);
          ("Data de Contratacao",
           ObjCol [Some " 01/01/2020"; Some ""; Some "01/12/2026"]);
          ("Data de Demissao", ObjCol [None; Some "30/06/2024"; None]);
          ("Sexo", ObjCol [Some "feminino"; Some "Outro"; Some " masculino "]);
          ("Salario Base", ObjCol [Some "5000"; Some "7000"; Some "x"]);
          ("Obs", ObjCol [Some " x "; None; Some "ok"])].

(** The same table once prepared. *)
Definition staff_prepared : DataFrame :=
  mkDF 3 [("Data de Nascimento",
           DateCol [Some (midnight 1990 3 15); None; Some (midnight 2030 1 1)]);
          ("Data de Contratacao",
           DateCol [Some (midnight 2020 1 1); None; Some (midnight 2026 12 1)]);
          ("Data de Demissao", DateCol [None; Some (midnight 2024 6 30); None]);
          ("Sexo", ObjCol [Some "F"; Some "OUTRO"; Some "M"]);
          ("Salario Base", NumCol [5000%float; 7000%float; 0%float]);
          ("Obs", ObjCol [Some "x"; Some "nan"; Some "ok"]);
          ("Impostos", NumCol [0%float; 0%float; 0%float]);
          ("Beneficios", NumCol [0%float; 0%float; 0%float]);
          ("VT", NumCol [0%float; 0%float; 0%float]);
          ("VR", NumCol [0%float; 0%float; 0%float]);
          ("Idade", NumCol [36%float; NaN; 0%float]);
          ("Tempo de Casa (meses)", NumCol [82%float; NaN; 0%float]);
          ("Status", ObjCol [Some "Ativo"; Some "Desligado"; Some "Ativo"]);
          ("Custo Total Mensal", NumCol [5000%float; 7000%float; 0%float])].

(** A table without termination dates. *)
Definition no_demissao : DataFrame :=
  mkDF 2 [("Salario Base", NumCol [1200%float; 3400%float])].

(** A sheet with a header row and no record. *)
Definition header_only : DataFrame :=
  mkDF 0 [("Data de Nascimento", ObjCol []); ("Salario Base", ObjCol [])].

(** One record with a sex code that is neither long spelling. *)
Definition outro : DataFrame :=
  mkDF 1 [("Sexo", ObjCol [Some "Outro"])].

(** One record with a padded note in a column the script does not know. *)
Definition padded_note : DataFrame :=
  mkDF 1 [("Obs", ObjCol [Some " x "])].

(** One record born on 1 January 1700. *)
Definition born_1700 : DataFrame :=
  mkDF 1 [("Data de Nascimento", ObjCol [Some "01/01/1700"])].


End Samples.

(** ** Column names and the shape of a table *)

(** [list(df.columns)] *)
Definition names (df : DataFrame) : list string := map fst (columns df).

(** [d'] has the rows of [d], is well formed, and lists the columns of [d]
    first, in their order, followed by the columns it adds. *)
Definition grows (d d' : DataFrame) : Prop :=
  wf d' /\ nrows d' = nrows d /\ exists added, names d' = (names d ++ added)%list.

(** A table typed by the reader: an empty termination-date column (all
    NaN), numeric salaries with one blank, numeric ratings. *)
Definition typed_sheet : DataFrame :=
  mkDF 2 [("Data de Demissao", NumCol [NaN; NaN]);
          ("Salario Base", NumCol [1200%float; NaN]);
          ("Avaliação do Funcionário", NumCol [4%float; 5%float])].

(** ** Currency text, lines 96-100 *)

(** [s.replace(old, new)] for a pattern and a replacement of one character:
    every occurrence is replaced. *)
Fixpoint str_replace (old new : ascii) (s : string) : string :=
  match s with
  | EmptyString => EmptyString
  | String c r => String (if Ascii.eqb c old then new else c) (str_replace old new r)
  end.

(** The decimal digits of a natural number. *)
Definition decimal (n : N) : string := NilZero.string_of_uint (N.to_uint n).

(** The [,] option of the format: a comma before every group of three
    digits, counted from the right. *)
Fixpoint group3 (s : string) : string :=
  match s with
  | EmptyString => EmptyString
  | String c r =>
      String c (if (0 <? String.length r)%nat && (String.length r mod 3 =? 0)%nat
                then String "," (group3 r)
                else group3 r)
  end.

(** The value [m * 2^e] in hundredths, rounded to the nearest integer, ties
    to even, as the [.2f] conversion rounds the exact binary value. *)
Definition cents_of (m : positive) (e : Z) : Z :=
  if 0 <=? e then Z.pos m * 2 ^ e * 100
  else
    let den := 2 ^ (- e) in
    let num := Z.pos m * 100 in
    let q := num / den in
    let r := num mod den in
    match 2 * r ?= den with
    | Lt => q
    | Gt => q + 1
    | Eq => if Z.even q then q else q + 1
    end.

Definition two_digits (k : Z) : string :=
  String (ascii_of_nat (48 + Z.to_nat (k / 10)))
    (String (ascii_of_nat (48 + Z.to_nat (k mod 10))) EmptyString).

(** [f"{x:,.2f}"] on a float. *)
Definition format_2f (x : float) : string :=
  match Prim2SF x with
  | S754_nan => "nan"
  | S754_infinity s => if s then "-inf" else "inf"
  | S754_zero s => if s then "-0.00" else "0.00"
  | S754_finite s m e =>
      let c := cents_of m e in
      (if s then "-" else "") ++
      group3 (decimal (Z.to_N (c / 100))) ++ "." ++ two_digits (c mod 100)
  end.

(** What [brl] is called with: a float, or an object that the format
    refuses (None, a text), on which the f-string raises. *)
Inductive brl_arg : Type :=
| Number (x : float)
| NotANumber.

Definition fstring_2f (a : brl_arg) : result string :=
  match a with
  | Number x => Ok ("R$ " ++ format_2f x)
  | NotANumber => Raise TypeError
  end.

(** [brl], lines 96-100. *)
Definition brl (a : brl_arg) : string :=
  match fstring_2f a with
  | Ok t => str_replace "X" "." (str_replace "." "," (str_replace "," "X" t))
  | Raise _ => "R$ 0,00"
  end.

(** One character with comma and dot exchanged. *)
Definition swap_char (c : ascii) : ascii :=
  if Ascii.eqb c "," then "."%char
  else if Ascii.eqb c "." then ","%char
  else c.

(** The text with its commas and dots exchanged. *)
Fixpoint swap_separators (s : string) : string :=
  match s with
  | EmptyString => EmptyString
  | String c r => String (swap_char c) (swap_separators r)
  end.

(** Every character of a text passes a test. *)
Fixpoint all_chars (p : ascii -> bool) (s : string) : bool :=
  match s with
  | EmptyString => true
  | String c r => p c && all_chars p r
  end.

Definition not_X (c : ascii) : bool := negb (Ascii.eqb c "X").

Definition digit_or_dot (c : ascii) : bool := PyStr.is_digit c || Ascii.eqb c ".".

Definition digit_or_comma (c : ascii) : bool := PyStr.is_digit c || Ascii.eqb c ",".

(** * Properties *)

(** Distinct names of a concrete table. *)
Ltac nodup_names :=
  repeat (constructor;
          [simpl; intros H_in;
           repeat (destruct H_in as [H_in|H_in]; [discriminate H_in|]);
           exact H_in|]);
  constructor.

Ltac wf_table := split; [nodup_names|repeat constructor].

(** ** Strings *)

Lemma upper_char_idem (c : ascii) : PyStr.upper_char (PyStr.upper_char c) = PyStr.upper_char c.
Proof.
  destruct c as [[] [] [] [] [] [] [] []]; reflexivity.
Qed.

Lemma upper_idem (s : string) : PyStr.upper (PyStr.upper s) = PyStr.upper s.
Proof.
  induction s as [|c r IH]; simpl; [reflexivity|].
  now rewrite upper_char_idem, IH.
Qed.

(** ** Reading and writing columns *)

Lemma alist_get_set (c c' : string) (v : column) (cols : list (string * column)) :
  alist_get c' (alist_set c v cols) =
  if String.eqb c' c then Some v else alist_get c' cols.
Proof.
  induction cols as [|[k w] r IH]; simpl.
  - destruct (String.eqb c' c); reflexivity.
  - destruct (String.eqb_spec c k) as [->|Hck]; simpl.
    + destruct (String.eqb c' k); reflexivity.
    + rewrite IH. destruct (String.eqb_spec c' k) as [->|Hk]; [|reflexivity].
      destruct (String.eqb_spec k c) as [E|_]; [congruence|reflexivity].
Qed.

Lemma df_get_set (d : DataFrame) (c c' : string) (v : column) :
  df_get (df_set d c v) c' = if String.eqb c' c then Some v else df_get d c'.
Proof. unfold df_get, df_set; simpl. apply alist_get_set. Qed.

Lemma df_get_update (d : DataFrame) (c c' : string) (f : column -> column) :
  df_get (df_update d c f) c' =
  if String.eqb c' c then option_map f (df_get d c) else df_get d c'.
Proof.
  unfold df_update. destruct (df_get d c) as [v|] eqn:E.
  - rewrite df_get_set. reflexivity.
  - destruct (String.eqb_spec c' c) as [->|_]; [rewrite E|]; reflexivity.
Qed.

Lemma nrows_update (d : DataFrame) (c : string) (f : column -> column) :
  nrows (df_update d c f) = nrows d.
Proof. unfold df_update. destruct (df_get d c); reflexivity. Qed.

(** ** Lines 105-106: the trim *)

Lemma sel_get_None (c : string) (sel : list (string * list (option string))) :
  ~ In c (map fst sel) -> sel_get c sel = None.
Proof.
  induction sel as [|[k v] r IH]; simpl; [reflexivity|]. intros H.
  destruct (String.eqb_spec c k) as [->|_]; [exfalso; auto|]. apply IH; auto.
Qed.

Lemma trim_fold_get (sel : list (string * list (option string))) :
  NoDup (map fst sel) ->
  forall (d : DataFrame) (c : string),
    df_get (fold_left (fun d kv => df_set d (fst kv)
                         (ObjCol (str_strip (astype_str (snd kv))))) sel d) c =
    match sel_get c sel with
    | Some l => Some (ObjCol (str_strip (astype_str l)))
    | None => df_get d c
    end.
Proof.
  induction sel as [|[k l] r IH]; simpl; intros ND d c; [reflexivity|].
  inversion ND as [|? ? Hk ND']; subst.
  rewrite (IH ND'). rewrite df_get_set.
  destruct (String.eqb_spec c k) as [->|_]; [|reflexivity].
  now rewrite (sel_get_None _ _ Hk).
Qed.

Lemma select_names_incl (cols : list (string * column)) (c : string) :
  In c (map fst (flat_map (fun kv => match snd kv with
                                     | ObjCol l => [(fst kv, l)]
                                     | _ => []
                                     end) cols)) ->
  In c (map fst cols).
Proof.
  induction cols as [|[k v] r IH]; simpl; [auto|].
  destruct v; simpl; intuition.
Qed.

Lemma select_NoDup (cols : list (string * column)) :
  NoDup (map fst cols) ->
  NoDup (map fst (flat_map (fun kv => match snd kv with
                                      | ObjCol l => [(fst kv, l)]
                                      | _ => []
                                      end) cols)).
Proof.
  induction cols as [|[k v] r IH]; simpl; intros ND; [constructor|].
  inversion ND as [|? ? Hk ND']; subst.
  destruct v; simpl; auto.
  constructor; auto. intros Hin. apply Hk. now apply select_names_incl.
Qed.

Lemma select_get (cols : list (string * column)) (c : string) :
  NoDup (map fst cols) ->
  sel_get c (flat_map (fun kv => match snd kv with
                                 | ObjCol l => [(fst kv, l)]
                                 | _ => []
                                 end) cols) =
  match alist_get c cols with
  | Some (ObjCol l) => Some l
  | _ => None
  end.
Proof.
  induction cols as [|[k v] r IH]; simpl; intros ND; [reflexivity|].
  inversion ND as [|? ? Hk ND']; subst.
  destruct (String.eqb_spec c k) as [->|Hck].
  - destruct v; simpl; rewrite ?String.eqb_refl; try reflexivity;
      apply sel_get_None; intros Hin; apply Hk; now apply select_names_incl.
  - destruct v; simpl; rewrite ?IH by assumption; try reflexivity.
    destruct (String.eqb_spec c k); [contradiction|reflexivity].
Qed.

Lemma df_get_trim (d : DataFrame) (c : string) :
  NoDup (map fst (columns d)) ->
  df_get (trim_step d) c = option_map trim_col (df_get d c).
Proof.
  intros ND. unfold trim_step, select_dtypes_object.
  rewrite trim_fold_get by now apply select_NoDup.
  rewrite select_get by assumption. unfold df_get.
  destruct (alist_get c (columns d)) as [[l|l|l]|]; reflexivity.
Qed.

Lemma nrows_trim (d : DataFrame) : nrows (trim_step d) = nrows d.
Proof.
  unfold trim_step. generalize (select_dtypes_object d) as sel.
  intros sel. revert d. induction sel as [|kv r IH]; intros d; simpl; [reflexivity|].
  now rewrite IH.
Qed.

(** ** The steps of [prepare_df], read column by column *)

Section PreparerFacts.

Variable pd : list (option string) -> string -> option timestamp.
Variable pn : string -> option float.
Variable ec : float -> option timestamp.

Lemma df_get_date_step (d : DataFrame) (c : string) :
  df_get (date_step pd ec d) c =
  if mem_string c DATE_COLS
  then option_map (fun v => DateCol (to_datetime pd ec v)) (df_get d c)
  else df_get d c.
Proof.
  unfold date_step, DATE_COLS, mem_string. simpl fold_left.
  rewrite !df_get_update. simpl existsb.
  destruct (String.eqb_spec c "Data de Nascimento") as [->|_]; [reflexivity|].
  destruct (String.eqb_spec c "Data de Contratacao") as [->|_]; [reflexivity|].
  destruct (String.eqb_spec c "Data de Demissao") as [->|_]; reflexivity.
Qed.

Lemma nrows_date_step (d : DataFrame) : nrows (date_step pd ec d) = nrows d.
Proof.
  unfold date_step, DATE_COLS. simpl fold_left.
  now rewrite !nrows_update.
Qed.

Lemma df_get_money_col_step (d : DataFrame) (col c : string) :
  df_get (money_col_step pn d col) c =
  if String.eqb c col
  then Some (NumCol (money_values pn (nrows d) (df_get d col)))
  else df_get d c.
Proof.
  unfold money_col_step, money_values.
  destruct (df_get d col) as [v|] eqn:E.
  - rewrite E, df_get_set. reflexivity.
  - rewrite df_get_set, String.eqb_refl, !df_get_set.
    destruct (String.eqb c col); reflexivity.
Qed.

Lemma nrows_money_col_step (d : DataFrame) (col : string) :
  nrows (money_col_step pn d col) = nrows d.
Proof.
  unfold money_col_step.
  destruct (df_get d col) as [v|] eqn:E.
  - now rewrite E.
  - now rewrite df_get_set, String.eqb_refl.
Qed.

Lemma nrows_money_step (d : DataFrame) : nrows (money_step pn d) = nrows d.
Proof.
  unfold money_step, MONEY_COLS. simpl fold_left.
  now rewrite !nrows_money_col_step.
Qed.

Lemma df_get_money_step (d : DataFrame) (c : string) :
  df_get (money_step pn d) c =
  if mem_string c MONEY_COLS
  then Some (NumCol (money_values pn (nrows d) (df_get d c)))
  else df_get d c.
Proof.
  unfold money_step, MONEY_COLS, mem_string. simpl fold_left.
  rewrite !df_get_money_col_step, !nrows_money_col_step. simpl existsb.
  destruct (String.eqb_spec c "Salario Base") as [->|_]; [reflexivity|].
  destruct (String.eqb_spec c "Impostos") as [->|_]; [reflexivity|].
  destruct (String.eqb_spec c "Beneficios") as [->|_]; [reflexivity|].
  destruct (String.eqb_spec c "VT") as [->|_]; [reflexivity|].
  destruct (String.eqb_spec c "VR") as [->|_]; reflexivity.
Qed.

Lemma sexo_step_inv (d d' : DataFrame) :
  sexo_step d = Ok d' ->
  nrows d' = nrows d /\
  forall c, df_get d' c =
            if String.eqb c "Sexo"
            then match df_get d c with
                 | Some (ObjCol l) =>
                     Some (ObjCol (replace SEXO_MAP (map (option_map PyStr.upper) l)))
                 | other => other
                 end
            else df_get d c.
Proof.
  unfold sexo_step. destruct (df_get d "Sexo") as [[l|l|l]|] eqn:E; simpl;
    intros H; inversion H; subst; clear H.
  - split; [reflexivity|]. intros c. rewrite df_get_set.
    destruct (String.eqb_spec c "Sexo") as [->|_]; [now rewrite E|reflexivity].
  - split; [reflexivity|]. intros c.
    destruct (String.eqb_spec c "Sexo") as [->|_]; [now rewrite E|reflexivity].
Qed.

Lemma nrows_status_step (d : DataFrame) : nrows (status_step d) = nrows d.
Proof. unfold status_step. destruct (df_get d _); reflexivity. Qed.

Lemma df_get_status_step (d : DataFrame) (c : string) :
  df_get (status_step d) c =
  if String.eqb c "Status"
  then match df_get d "Data de Demissao" with
       | Some v => Some (ObjCol (np_where (notna v) "Desligado" "Ativo"))
       | None => Some (ObjCol (repeat (Some "Ativo") (nrows d)))
       end
  else df_get d c.
Proof.
  unfold status_step. destruct (df_get d "Data de Demissao");
    rewrite df_get_set; reflexivity.
Qed.

(** The payload read back from a numeric column. *)
Lemma getitems_payloads (d : DataFrame) (names : list string) :
  forall cs ls,
    getitems d names = Ok cs ->
    numeric_payloads cs = Ok ls ->
    Forall2 (fun c l => df_get d c = Some (NumCol l)) names ls.
Proof.
  induction names as [|c r IH]; simpl; intros cs ls Hg Hp.
  - inversion Hg; subst. simpl in Hp. inversion Hp. constructor.
  - unfold getitem in Hg. destruct (df_get d c) as [v|] eqn:E; simpl in Hg; [|discriminate].
    destruct (getitems d r) as [vs|] eqn:Er; simpl in Hg; [|discriminate].
    inversion Hg; subst; clear Hg.
    destruct v as [l|l|l]; simpl in Hp; try discriminate.
    destruct (numeric_payloads vs) as [ls'|] eqn:Ep; simpl in Hp; [|discriminate].
    inversion Hp; subst. constructor; [exact E|]. now apply (IH vs).
Qed.

Lemma payloads_getitems (d : DataFrame) (names : list string) (ls : list (list float)) :
  Forall2 (fun c l => df_get d c = Some (NumCol l)) names ls ->
  exists cs, getitems d names = Ok cs /\ numeric_payloads cs = Ok ls.
Proof.
  induction 1 as [|c l names ls Hc _ [cs [Hg Hp]]]; simpl.
  - eexists; split; reflexivity.
  - unfold getitem. rewrite Hc, Hg. simpl. eexists; split; [reflexivity|].
    simpl. now rewrite Hp.
Qed.

Lemma custo_step_ok (d : DataFrame) (ls : list (list float)) :
  Forall2 (fun c l => df_get d c = Some (NumCol l)) MONEY_COLS ls ->
  custo_step d = Ok (df_set d "Custo Total Mensal" (NumCol (sum_axis1 (nrows d) ls))).
Proof.
  intros H. apply payloads_getitems in H. destruct H as [cs [Hg Hp]].
  unfold custo_step. now rewrite Hg; simpl; rewrite Hp.
Qed.

Lemma sexo_step_ok (d : DataFrame) :
  (forall v, df_get d "Sexo" = Some v -> is_object v = true) ->
  exists d', sexo_step d = Ok d'.
Proof.
  unfold sexo_step. intros H.
  destruct (df_get d "Sexo") as [[l|l|l]|]; simpl; eauto;
    specialize (H _ eq_refl); discriminate.
Qed.

Lemma reachable_not_overflows (today b : timestamp) :
  reachable today b = true -> overflows today b = false.
Proof. unfold reachable, overflows, iNaT, INT64_MAX. lia. Qed.

Lemma all_reachable_none_overflows (today : timestamp) (l : list (option timestamp)) :
  all_dates (reachable today) l = true -> some_date (overflows today) l = false.
Proof.
  unfold all_dates, some_date. induction l as [|[b|] l IH]; cbn [forallb existsb].
  - reflexivity.
  - intros H. apply andb_true_iff in H. destruct H as [Hb Hl].
    now rewrite (reachable_not_overflows _ _ Hb), IH.
  - intros H. now rewrite IH.
Qed.

Lemma rsub_dates_ok (today : timestamp) (l : list (option timestamp)) :
  all_dates (reachable today) l = true -> rsub_dates today l = Ok (deltas today l).
Proof.
  intros H. unfold rsub_dates.
  now rewrite (all_reachable_none_overflows _ _ H), H.
Qed.

Lemma rsub_dates_inv (today : timestamp) (l : list (option timestamp))
      (tds : list (option Z)) :
  rsub_dates today l = Ok tds ->
  all_dates (reachable today) l = true /\ tds = deltas today l.
Proof.
  unfold rsub_dates. destruct (some_date _ l); [discriminate|].
  destruct (all_dates _ l); [|discriminate].
  intros H. inversion H. split; reflexivity.
Qed.



Lemma idade_step_spec (today : timestamp) (d : DataFrame) :
  (forall v, df_get d "Data de Nascimento" = Some v ->
             exists l, v = DateCol l /\ all_dates (reachable today) l = true) ->
  exists d', idade_step today d = Ok d' /\ nrows d' = nrows d /\
    forall c, df_get d' c =
              match df_get d "Data de Nascimento" with
              | Some (DateCol l) =>
                  if String.eqb c "Idade"
                  then Some (int_series (idade_values (deltas today l)))
                  else df_get d c
              | _ => df_get d c
              end.
Proof.
  unfold idade_step. intros H.
  destruct (df_get d "Data de Nascimento") as [v|].
  - destruct (H v eq_refl) as [l [-> R]]. rewrite (rsub_dates_ok _ _ R). cbn [bind].
    eexists; split; [reflexivity|].
    split; [reflexivity|]. intros c. apply df_get_set.
  - eexists; split; [reflexivity|]. split; reflexivity.
Qed.

Lemma tempo_step_spec (today : timestamp) (d : DataFrame) :
  (forall v, df_get d "Data de Contratacao" = Some v -> exists l, v = DateCol l) ->
  exists d', tempo_step today d = Ok d' /\ nrows d' = nrows d /\
    forall c, df_get d' c =
              match df_get d "Data de Contratacao" with
              | Some (DateCol l) =>
                  if String.eqb c "Tempo de Casa (meses)"
                  then Some (int_series (meses_values today l))
                  else df_get d c
              | _ => df_get d c
              end.
Proof.
  unfold tempo_step. intros H.
  destruct (df_get d "Data de Contratacao") as [v|].
  - destruct (H v eq_refl) as [l ->]. eexists; split; [reflexivity|].
    split; [reflexivity|]. intros c. apply df_get_set.
  - eexists; split; [reflexivity|]. split; reflexivity.
Qed.

Lemma prepare_df_spec (today : timestamp) (raw : DataFrame) :
  NoDup (map fst (columns raw)) ->
  (forall v, df_get raw "Sexo" = Some v -> is_object v = true) ->
  all_dates (reachable today) (birth_dates pd ec raw) = true ->
  exists d, prepare_df pd pn ec today raw = Ok d /\ nrows d = nrows raw /\
    forall c, df_get d c = prepared_col pd pn ec today raw c.
Proof.
  intros ND HS HR. unfold prepare_df.
  set (d1 := date_step pd ec (trim_step raw)).
  assert (G1 : forall c, df_get d1 c =
                 if mem_string c DATE_COLS
                 then option_map (fun v => DateCol (to_datetime pd ec v)) (trimmed raw c)
                 else trimmed raw c).
  { intros c. unfold d1. rewrite df_get_date_step, df_get_trim by assumption. reflexivity. }
  assert (N1 : nrows d1 = nrows raw).
  { unfold d1. now rewrite nrows_date_step, nrows_trim. }
  clearbody d1.
  destruct (@sexo_step_ok d1) as [d3 E3].
  { intros v. rewrite G1. simpl. unfold trimmed.
    destruct (df_get raw "Sexo") as [w|] eqn:E; simpl; [|discriminate].
    intros H; inversion H; subst. specialize (HS _ eq_refl).
    destruct w; simpl in *; congruence. }
  rewrite E3. cbn [bind].
  destruct (sexo_step_inv _ E3) as [N3 G3].
  set (d4 := money_step pn d3).
  assert (G4 := df_get_money_step d3). fold d4 in G4.
  assert (N4 : nrows d4 = nrows d3) by apply nrows_money_step.
  clearbody d4.
  destruct (@idade_step_spec today d4) as [d5 [E5 [N5 G5]]].
  { intros v. rewrite G4, G3, G1. simpl. unfold birth_dates in HR.
    destruct (trimmed raw "Data de Nascimento"); simpl; [|discriminate].
    intros H; inversion H; eauto. }
  rewrite E5. cbn [bind].
  destruct (@tempo_step_spec today d5) as [d6 [E6 [N6 G6]]].
  { intros v. rewrite G5, G4, G3, G1. simpl.
    destruct (trimmed raw "Data de Nascimento"); simpl;
    rewrite ?G4, ?G3, ?G1; simpl;
    (destruct (trimmed raw "Data de Contratacao"); simpl; [|discriminate]);
    intros H; inversion H; eauto. }
  rewrite E6. cbn [bind].
  set (d7 := status_step d6).
  assert (G7 := df_get_status_step d6). fold d7 in G7.
  assert (N7 : nrows d7 = nrows d6) by apply nrows_status_step.
  clearbody d7.
  assert (NR : nrows d7 = nrows raw) by congruence.
  assert (B : df_get d4 "Data de Nascimento" =
              option_map (fun v => DateCol (to_datetime pd ec v))
                         (trimmed raw "Data de Nascimento")).
  { rewrite G4, G3, G1. reflexivity. }
  rewrite B in G5.
  assert (Hh : df_get d5 "Data de Contratacao" =
               option_map (fun v => DateCol (to_datetime pd ec v))
                          (trimmed raw "Data de Contratacao")).
  { rewrite G5. destruct (trimmed raw "Data de Nascimento"); simpl;
      rewrite G4, G3, G1; reflexivity. }
  rewrite Hh in G6.
  assert (T : df_get d6 "Data de Demissao" =
              option_map (fun v => DateCol (to_datetime pd ec v))
                         (trimmed raw "Data de Demissao")).
  { rewrite G6. destruct (trimmed raw "Data de Contratacao"); simpl;
      rewrite G5; destruct (trimmed raw "Data de Nascimento"); simpl;
      rewrite G4, G3, G1; reflexivity. }
  rewrite T in G7.
  assert (M : forall m, In m MONEY_COLS ->
              df_get d7 m = Some (NumCol (money_values pn (nrows raw) (trimmed raw m)))).
  { intros m Hm. rewrite G7, G6.
    assert (E4 : df_get d4 m = Some (NumCol (money_values pn (nrows raw) (trimmed raw m)))).
    { rewrite G4, G3, G1, N3, N1.
      simpl in Hm. repeat (destruct Hm as [<-|Hm]; [reflexivity|]). contradiction. }
    simpl in Hm.
    repeat (destruct Hm as [<-|Hm];
            [simpl; destruct (trimmed raw "Data de Contratacao"); simpl;
             rewrite G5; destruct (trimmed raw "Data de Nascimento"); simpl; exact E4|]).
    contradiction. }
  eexists. split.
  { apply custo_step_ok with
      (ls := map (fun m => money_values pn (nrows raw) (trimmed raw m)) MONEY_COLS).
    unfold MONEY_COLS at 2. simpl map.
    repeat (constructor; [apply M; simpl; tauto|]). constructor. }
  split; [simpl; congruence|].
  intros c. rewrite df_get_set, NR. unfold prepared_col.
  destruct (String.eqb_spec c "Custo Total Mensal") as [->|_]; [reflexivity|].
  rewrite G7.
  destruct (String.eqb_spec c "Status") as [->|_].
  { destruct (trimmed raw "Data de Demissao"); simpl; [reflexivity|].
    now rewrite N6, N5, N4, N3, N1. }
  rewrite G6.
  destruct (String.eqb_spec c "Tempo de Casa (meses)") as [->|_].
  { destruct (trimmed raw "Data de Contratacao"); simpl; [reflexivity|].
    rewrite G5. destruct (trimmed raw "Data de Nascimento"); simpl;
      rewrite G4, G3, G1; reflexivity. }
  assert (E6' : df_get d5 c =
                match option_map (fun v => DateCol (to_datetime pd ec v))
                        (trimmed raw "Data de Contratacao") with
                | Some (DateCol l) => df_get d5 c
                | _ => df_get d5 c
                end).
  { destruct (trimmed raw "Data de Contratacao"); reflexivity. }
  rewrite <- E6'; clear E6'. rewrite G5.
  destruct (String.eqb_spec c "Idade") as [->|_].
  { destruct (trimmed raw "Data de Nascimento"); simpl; [reflexivity|].
    rewrite G4, G3, G1. reflexivity. }
  assert (E5' : df_get d4 c =
                match option_map (fun v => DateCol (to_datetime pd ec v))
                        (trimmed raw "Data de Nascimento") with
                | Some (DateCol l) => df_get d4 c
                | _ => df_get d4 c
                end).
  { destruct (trimmed raw "Data de Nascimento"); reflexivity. }
  rewrite <- E5'; clear E5'. rewrite G4, N3, N1.
  unfold mem_string at 1 2, MONEY_COLS. simpl existsb.
  destruct (String.eqb_spec c "Salario Base") as [->|_];
    [rewrite G3, G1; reflexivity|].
  destruct (String.eqb_spec c "Impostos") as [->|_];
    [rewrite G3, G1; reflexivity|].
  destruct (String.eqb_spec c "Beneficios") as [->|_];
    [rewrite G3, G1; reflexivity|].
  destruct (String.eqb_spec c "VT") as [->|_];
    [rewrite G3, G1; reflexivity|].
  destruct (String.eqb_spec c "VR") as [->|_];
    [rewrite G3, G1; reflexivity|].
  simpl. rewrite G3.
  destruct (String.eqb_spec c "Sexo") as [->|_].
  { rewrite G1. reflexivity. }
  rewrite G1. reflexivity.
Qed.

Lemma prepare_df_raises (today : timestamp) (raw : DataFrame) (v : column) :
  NoDup (map fst (columns raw)) ->
  df_get raw "Sexo" = Some v -> is_object v = false ->
  prepare_df pd pn ec today raw = Raise AttributeError.
Proof.
  intros ND E Hv. unfold prepare_df, sexo_step.
  rewrite df_get_date_step, df_get_trim by assumption. rewrite E.
  destruct v as [l|l|l]; [discriminate Hv|reflexivity|reflexivity].
Qed.

Lemma prepare_df_stops (today : timestamp) (raw : DataFrame) (e : exn) :
  NoDup (map fst (columns raw)) ->
  (forall v, df_get raw "Sexo" = Some v -> is_object v = true) ->
  rsub_dates today (birth_dates pd ec raw) = Raise e ->
  prepare_df pd pn ec today raw = Raise e.
Proof.
  intros ND HS HR. unfold prepare_df.
  destruct (@sexo_step_ok (date_step pd ec (trim_step raw))) as [d3 E3].
  { intros v. rewrite df_get_date_step, df_get_trim by assumption.
    simpl. destruct (df_get raw "Sexo") as [w|] eqn:E; simpl; [|discriminate].
    intros H; inversion H; subst. specialize (HS _ eq_refl).
    destruct w; simpl in *; congruence. }
  rewrite E3. cbn [bind].
  destruct (sexo_step_inv _ E3) as [_ G3].
  unfold idade_step. rewrite df_get_money_step, G3.
  rewrite df_get_date_step, df_get_trim by assumption.
  unfold birth_dates, trimmed in HR. simpl.
  destruct (df_get raw "Data de Nascimento") as [v|]; simpl in *.
  - now rewrite HR.
  - discriminate HR.
Qed.

Lemma prepare_df_reach (today : timestamp) (raw d : DataFrame) :
  NoDup (map fst (columns raw)) ->
  prepare_df pd pn ec today raw = Ok d ->
  (forall v, df_get raw "Sexo" = Some v -> is_object v = true) /\
  all_dates (reachable today) (birth_dates pd ec raw) = true.
Proof.
  intros ND H.
  assert (HS : forall v, df_get raw "Sexo" = Some v -> is_object v = true).
  { intros v E. destruct (is_object v) eqn:Hv; [reflexivity|].
    rewrite (prepare_df_raises today raw ND E Hv) in H. discriminate. }
  split; [exact HS|].
  destruct (rsub_dates today (birth_dates pd ec raw)) as [tds|e] eqn:R.
  - exact (proj1 (rsub_dates_inv _ _ R)).
  - rewrite (@prepare_df_stops today raw e ND HS R) in H. discriminate.
Qed.

Lemma prepare_df_get (today : timestamp) (raw d : DataFrame) :
  NoDup (map fst (columns raw)) ->
  prepare_df pd pn ec today raw = Ok d ->
  nrows d = nrows raw /\
  forall c, df_get d c = prepared_col pd pn ec today raw c.
Proof.
  intros ND H.
  destruct (@prepare_df_reach today raw d ND H) as [HS HR].
  destruct (@prepare_df_spec today raw ND HS HR) as [d' [H' R]].
  rewrite H in H'. inversion H'; subst. exact R.
Qed.

End PreparerFacts.

(** ** Sample runs *)

Example staff_run :
  Reference.prepare Reference.a_today Samples.staff = Ok Samples.staff_prepared.
Proof. vm_compute. reflexivity. Qed.

Example staff_wf : wf Samples.staff.
Proof. wf_table. Qed.

Example no_demissao_run :
  bind (Reference.prepare Reference.a_today Samples.no_demissao)
       (fun d => getitem d "Status") = Ok (ObjCol [Some "Ativo"; Some "Ativo"]) /\
  bind (Reference.prepare Reference.a_today Samples.no_demissao)
       (fun d => getitem d "Custo Total Mensal") = Ok (NumCol [1200%float; 3400%float]) /\
  bind (Reference.prepare Reference.a_today Samples.no_demissao) k_folha
  = Ok (PFloat 4600).
Proof. vm_compute. repeat split. Qed.

Example staff_indicators :
  k_headcount_ativo Samples.staff_prepared = Ok (PInt 2) /\
  k_desligados Samples.staff_prepared = Ok (PInt 1) /\
  k_folha Samples.staff_prepared = Ok (PFloat 5000) /\
  k_custo_total Samples.staff_prepared = Ok (PFloat 5000) /\
  k_idade_media Samples.staff_prepared = Ok (PFloat 18) /\
  k_avaliacao_media Samples.staff_prepared = Ok (PInt 0).
Proof. vm_compute. repeat split. Qed.

(** ** Line 113: the sex code *)

Lemma sexo_canon_obj (l : list (option string)) :
  sexo_canon (ObjCol l) = Ok (ObjCol (map (option_map sexo_text) l)).
Proof.
  unfold sexo_canon, str_upper, replace. cbn [bind]. rewrite map_map.
  do 2 f_equal. apply map_ext. intros [s|]; [|reflexivity].
  cbn [option_map]. unfold sexo_text, SEXO_MAP. cbn [dict_get].
  destruct (String.eqb (PyStr.upper s) "MASCULINO"); [reflexivity|].
  destruct (String.eqb (PyStr.upper s) "FEMININO"); reflexivity.
Qed.

Lemma sexo_text_idem (s : string) : sexo_text (sexo_text s) = sexo_text s.
Proof.
  unfold sexo_text at 2 3.
  destruct (String.eqb_spec (PyStr.upper s) "MASCULINO") as [_|N1]; [reflexivity|].
  destruct (String.eqb_spec (PyStr.upper s) "FEMININO") as [_|N2]; [reflexivity|].
  unfold sexo_text. rewrite upper_idem.
  destruct (String.eqb_spec (PyStr.upper s) "MASCULINO"); [contradiction|].
  destruct (String.eqb_spec (PyStr.upper s) "FEMININO"); [contradiction|].
  reflexivity.
Qed.

(** C3, as the code has it: the sex code of a text is its upper case, with
    "M" and "F" for the two long spellings; a text column becomes the column
    of the codes of its cells, missing cells staying missing. So "feminino"
    becomes "F", and "Outro", which is neither spelling, becomes "OUTRO". *)
Theorem C3_sexo_canon_upper :
  (forall l, sexo_canon (ObjCol l) = Ok (ObjCol (map (option_map sexo_text) l))) /\
  sexo_canon (ObjCol [Some "feminino"; Some "Outro"]) = Ok (ObjCol [Some "F"; Some "OUTRO"]) /\
  sexo_text "MASCULINO" = "M" /\
  sexo_text "FEMININO" = "F" /\
  (forall s, sexo_text s = "M" \/ sexo_text s = "F" \/ sexo_text s = PyStr.upper s).
Proof.
  split; [exact sexo_canon_obj|].
  split; [reflexivity|]. split; [reflexivity|]. split; [reflexivity|].
  intros s. unfold sexo_text.
  destruct (String.eqb (PyStr.upper s) "MASCULINO"); [now left|].
  destruct (String.eqb (PyStr.upper s) "FEMININO"); [now right; left|now right; right].
Qed.

(** C3 as stated fails: the column holding "Outro" does not come back
    unchanged. *)
Lemma C3_outro_is_uppercased :
  sexo_canon (ObjCol [Some "Outro"]) <> Ok (ObjCol [Some "Outro"]) /\
  bind (Reference.prepare Reference.a_today Samples.outro)
       (fun d => getitem d "Sexo") = Ok (ObjCol [Some "OUTRO"]).
Proof.
  split; [|vm_compute; reflexivity].
  rewrite sexo_canon_obj. cbn. intros H. discriminate H.
Qed.

(** C8: canonicalising a sex column twice gives what canonicalising it once
    gives, the raised error included. *)
Theorem C8_sexo_canon_idempotent (c : column) :
  bind (sexo_canon c) sexo_canon = sexo_canon c.
Proof.
  destruct c as [l|l|l]; try reflexivity.
  rewrite sexo_canon_obj. cbn [bind]. rewrite sexo_canon_obj, map_map.
  do 2 f_equal. apply map_ext. intros [s|]; [|reflexivity].
  cbn [option_map]. now rewrite sexo_text_idem.
Qed.

(** ** Lines 105-106: no missing cell is left in a text column *)

(** C10: after the trim step every column that was text-typed is a text
    column of the same length in which every cell is a string: a missing
    cell has become the string "nan", a text has become its stripped text.
    This holds for every text column, known to the script or not. *)
Theorem C10_trim_leaves_strings (raw : DataFrame) (c : string) (l : list (option string)) :
  wf raw ->
  df_get raw c = Some (ObjCol l) ->
  exists l',
    df_get (trim_step raw) c = Some (ObjCol l') /\
    List.length l' = List.length l /\
    (forall i cell, nth_error l' i = Some cell -> exists s, cell = Some s) /\
    (forall i, nth_error l i = Some None -> nth_error l' i = Some (Some "nan")) /\
    (forall i s, nth_error l i = Some (Some s) ->
                 nth_error l' i = Some (Some (PyStr.strip s))).
Proof.
  intros [ND _] E. exists (str_strip (astype_str l)).
  rewrite df_get_trim by assumption. rewrite E. cbn [option_map trim_col].
  unfold str_strip, astype_str. rewrite map_map.
  split; [reflexivity|]. split; [now rewrite length_map|].
  split; [|split].
  - intros i cell H. rewrite nth_error_map in H.
    destruct (nth_error l i) as [[s|]|]; cbn in H; inversion H; eauto.
  - intros i H. rewrite nth_error_map, H. reflexivity.
  - intros i s H. rewrite nth_error_map, H. reflexivity.
Qed.

Lemma C10_trim_leaves_strings_witness :
  wf Samples.staff /\
  df_get Samples.staff "Obs" = Some (ObjCol [Some " x "; None; Some "ok"]) /\
  exists l',
    df_get (trim_step Samples.staff) "Obs" = Some (ObjCol l') /\
    List.length l' = 3%nat /\
    (forall i cell, nth_error l' i = Some cell -> exists s, cell = Some s) /\
    (forall i, nth_error [Some " x "; None; Some "ok"] i = Some None ->
               nth_error l' i = Some (Some "nan")) /\
    (forall i s, nth_error [Some " x "; None; Some "ok"] i = Some (Some s) ->
                 nth_error l' i = Some (Some (PyStr.strip s))).
Proof.
  split; [wf_table|]. split; [reflexivity|].
  apply (@C10_trim_leaves_strings Samples.staff "Obs" [Some " x "; None; Some "ok"]).
  - wf_table.
  - reflexivity.
Defined.

(** ** Lines 130-133: the status *)

Section Status.

Variable pd : list (option string) -> string -> option timestamp.
Variable pn : string -> option float.
Variable ec : float -> option timestamp.

Lemma prepared_status (today : timestamp) (raw : DataFrame) :
  prepared_col pd pn ec today raw "Status" =
  match trimmed raw "Data de Demissao" with
  | Some v => Some (ObjCol (np_where (notna (DateCol (to_datetime pd ec v)))
                                     "Desligado" "Ativo"))
  | None => Some (ObjCol (repeat (Some "Ativo") (nrows raw)))
  end.
Proof. reflexivity. Qed.

Lemma prepared_demissao (today : timestamp) (raw : DataFrame) :
  prepared_col pd pn ec today raw "Data de Demissao" =
  option_map (fun v => DateCol (to_datetime pd ec v)) (trimmed raw "Data de Demissao").
Proof. reflexivity. Qed.

Lemma status_cells (dates : list (option timestamp)) (i : nat) :
  nth_error (np_where (notna (DateCol dates)) "Desligado" "Ativo") i =
  option_map (fun o : option timestamp =>
                Some (match o with Some _ => "Desligado" | None => "Ativo" end))
             (nth_error dates i).
Proof.
  unfold np_where, notna. rewrite map_map, nth_error_map.
  destruct (nth_error dates i) as [[t|]|]; reflexivity.
Qed.

(** C1: in the prepared table a record's Status is "Desligado" exactly
    when its termination date parsed to a date, and "Ativo" exactly when
    it parsed to the missing date; when the raw table has no
    termination-date column, the Status column is "Ativo" on every
    record. *)
Theorem C1_status_iff_demissao (today : timestamp) (raw d : DataFrame) :
  wf raw ->
  prepare_df pd pn ec today raw = Ok d ->
  (df_get raw "Data de Demissao" = None ->
   df_get d "Status" = Some (ObjCol (repeat (Some "Ativo") (nrows raw)))) /\
  (df_get raw "Data de Demissao" <> None ->
   exists dates sts,
     df_get d "Data de Demissao" = Some (DateCol dates) /\
     df_get d "Status" = Some (ObjCol sts) /\
     List.length sts = List.length dates /\
     forall i,
       (nth_error sts i = Some (Some "Desligado") <->
        exists t, nth_error dates i = Some (Some t)) /\
       (nth_error sts i = Some (Some "Ativo") <->
        nth_error dates i = Some None)).
Proof.
  intros [ND _] H. destruct (@prepare_df_get pd pn ec today raw d ND H) as [_ G].
  split.
  - intros E. rewrite G, prepared_status. unfold trimmed. now rewrite E.
  - intros E. destruct (df_get raw "Data de Demissao") as [v|] eqn:Ev; [|congruence].
    exists (to_datetime pd ec (trim_col v)).
    exists (np_where (notna (DateCol (to_datetime pd ec (trim_col v)))) "Desligado" "Ativo").
    split; [rewrite G, prepared_demissao; unfold trimmed; now rewrite Ev|].
    split; [rewrite G, prepared_status; unfold trimmed; now rewrite Ev|].
    split; [unfold np_where, notna; now rewrite !length_map|].
    intros i. rewrite status_cells.
    destruct (nth_error (to_datetime pd ec (trim_col v)) i) as [[t|]|]; cbn;
      (split; split; intros X; try discriminate X; try reflexivity; eauto);
      try (destruct X as [t' X]; discriminate X).
Qed.

End Status.

Lemma C1_status_iff_demissao_witness :
  wf Samples.staff /\
  Reference.prepare Reference.a_today Samples.staff = Ok Samples.staff_prepared /\
  df_get Samples.staff "Data de Demissao" <> None /\
  exists dates sts,
    df_get Samples.staff_prepared "Data de Demissao" = Some (DateCol dates) /\
    df_get Samples.staff_prepared "Status" = Some (ObjCol sts) /\
    List.length sts = List.length dates /\
    forall i,
      (nth_error sts i = Some (Some "Desligado") <->
       exists t, nth_error dates i = Some (Some t)) /\
      (nth_error sts i = Some (Some "Ativo") <->
       nth_error dates i = Some None).
Proof.
  assert (W : wf Samples.staff) by wf_table.
  assert (R : Reference.prepare Reference.a_today Samples.staff = Ok Samples.staff_prepared)
    by (vm_compute; reflexivity).
  assert (N : df_get Samples.staff "Data de Demissao" <> None)
    by (vm_compute; discriminate).
  split; [exact W|]. split; [exact R|]. split; [exact N|].
  exact (proj2 (@C1_status_iff_demissao (fun _ => Reference.parse_dmy)
                  Reference.parse_decimal Reference.trunc_cast
                  Reference.a_today Samples.staff Samples.staff_prepared W R) N).
Defined.

(** ** Lines 115-118 and 135: the money columns and the monthly cost *)

Lemma isnan_fillna_cell (x : float) :
  isnan (if isnan x then 0%float else x) = false.
Proof. destruct (isnan x) eqn:E; [reflexivity|exact E]. Qed.

Lemma fillna_no_nan (l : list float) :
  Forall (fun x => isnan x = false) (fillna 0%float l).
Proof.
  unfold fillna. apply Forall_forall. intros y Hy.
  apply in_map_iff in Hy. destruct Hy as [x [<- _]]. apply isnan_fillna_cell.
Qed.

Lemma fillna_clean (l : list float) :
  Forall (fun x => isnan x = false) l -> fillna 0%float l = l.
Proof.
  intros H. unfold fillna. induction H as [|x r Hx _ IH]; [reflexivity|].
  cbn. now rewrite Hx, IH.
Qed.


Lemma wf_col_len (raw : DataFrame) (c : string) (v : column) :
  wf raw -> df_get raw c = Some v -> col_len v = nrows raw.
Proof.
  intros [_ F]. unfold df_get. induction (columns raw) as [|[k w] r IH]; cbn; [discriminate|].
  inversion F as [|? ? Hw Hr]; subst.
  destruct (String.eqb c k); [intros E; inversion E; subst; exact Hw|now apply IH].
Qed.

Lemma col_len_trim (v : column) : col_len (trim_col v) = col_len v.
Proof.
  destruct v as [l|l|l]; cbn; [|reflexivity|reflexivity].
  unfold str_strip, astype_str. now rewrite !length_map.
Qed.

Section Money.

Variable pd : list (option string) -> string -> option timestamp.
Variable pn : string -> option float.
Variable ec : float -> option timestamp.

Lemma length_to_numeric (v : column) : List.length (to_numeric pn v) = col_len v.
Proof. destruct v as [l|l|l]; cbn; now rewrite ?length_map. Qed.

Lemma length_money_values (raw : DataFrame) (m : string) :
  wf raw ->
  List.length (money_values pn (nrows raw) (trimmed raw m)) = nrows raw.
Proof.
  intros W. unfold money_values, fillna, trimmed. rewrite length_map, length_to_numeric.
  destruct (df_get raw m) as [v|] eqn:E; cbn [option_map].
  - rewrite col_len_trim. now apply wf_col_len with (c := m).
  - cbn. apply repeat_length.
Qed.

Lemma money_values_no_nan (n : nat) (oc : option column) :
  Forall (fun x => isnan x = false) (money_values pn n oc).
Proof. apply fillna_no_nan. Qed.


Lemma prepared_money (today : timestamp) (raw : DataFrame) (m : string) :
  In m MONEY_COLS ->
  prepared_col pd pn ec today raw m =
  Some (NumCol (money_values pn (nrows raw) (trimmed raw m))).
Proof.
  intros H. cbn in H.
  repeat (destruct H as [<-|H]; [reflexivity|]). contradiction.
Qed.

Lemma prepared_custo (today : timestamp) (raw : DataFrame) :
  prepared_col pd pn ec today raw "Custo Total Mensal" =
  Some (NumCol (sum_axis1 (nrows raw)
                  (map (fun m => money_values pn (nrows raw) (trimmed raw m)) MONEY_COLS))).
Proof. reflexivity. Qed.





End Money.


(** ** The sum of a column *)

(** The length of the list is fuel enough: more changes nothing. *)
Lemma pairwise_sum_fuel (f : nat) (l : list float) :
  (List.length l <= f)%nat -> pairwise_sum f l = pairwise_sum (List.length l) l.
Proof.
  assert (G : forall f1 f2 l, (List.length l <= f1)%nat -> (List.length l <= f2)%nat ->
                              pairwise_sum f1 l = pairwise_sum f2 l).
  { clear. induction f1 as [|f1 IH]; intros f2 l H1 H2.
    - destruct l; [|cbn in H1; lia]. destruct f2; reflexivity.
    - destruct f2 as [|f2].
      + destruct l; [|cbn in H2; lia]. reflexivity.
      + cbn [pairwise_sum].
        destruct (PW_BLOCKSIZE <? List.length l)%nat eqn:E; [|reflexivity].
        apply Nat.ltb_lt in E. unfold PW_BLOCKSIZE in E.
        pose proof (Nat.div_mod_eq (List.length l) 2) as D.
        pose proof (Nat.mod_upper_bound (List.length l) 2) as M2.
        pose proof (Nat.mod_upper_bound (List.length l / 2) 8) as M8.
        f_equal; apply IH; rewrite ?length_firstn, ?length_skipn; lia. }
  intros H. apply G; [exact H|lia].
Qed.

(** Ten cells of 0.1 (the float 0x1.999999999999ap-4) add up to 1.0 in a
    column, where eight running sums are paired before the last two cells
    are added; in order from 0.0 they add up to the float just below 1. *)
Example ten_tenths :
  series_sum (NumCol (repeat 0x1.999999999999ap-4%float 10)) = Ok (PFloat 1%float) /\
  nansum (repeat 0x1.999999999999ap-4%float 10) = 0x1.fffffffffffffp-1%float.
Proof. vm_compute. split; reflexivity. Qed.

(** A column of more than 128 cells is cut in two. *)
Example two_hundred_ones :
  series_sum (NumCol (repeat 1%float 200)) = Ok (PFloat 200%float).
Proof. vm_compute. reflexivity. Qed.

(** ** Line 182: the payroll *)




Section Payroll.

Variable pd : list (option string) -> string -> option timestamp.
Variable pn : string -> option float.
Variable ec : float -> option timestamp.

Lemma length_to_datetime (v : column) :
  List.length (to_datetime pd ec v) = col_len v.
Proof. destruct v as [l|l|l]; cbn; now rewrite ?length_map. Qed.

Lemma prepared_status_col (today : timestamp) (raw : DataFrame) :
  wf raw ->
  exists sts, prepared_col pd pn ec today raw "Status" = Some (ObjCol sts) /\
              List.length sts = nrows raw.
Proof.
  intros W. rewrite prepared_status. unfold trimmed.
  destruct (df_get raw "Data de Demissao") as [v|] eqn:E; cbn [option_map];
    eexists; (split; [reflexivity|]).
  - unfold np_where, notna. rewrite !length_map, length_to_datetime, col_len_trim.
    now apply wf_col_len with (c := "Data de Demissao").
  - apply repeat_length.
Qed.


End Payroll.


(** ** Lines 122-128: age and tenure *)

Lemma idade_values_cell (today : timestamp) (l : list (option timestamp)) (i : nat) :
  nth_error (idade_values (deltas today l)) i =
  option_map (option_map (fun b => Z.max 0 (timedelta_days (today - b) / 365)))
             (nth_error l i).
Proof.
  unfold idade_values, deltas, timestamp in *. rewrite !map_map, nth_error_map.
  destruct (nth_error l i) as [[b|]|]; reflexivity.
Qed.

Lemma meses_values_cell (today : timestamp) (l : list (option timestamp)) (i : nat) :
  nth_error (meses_values today l) i =
  option_map (option_map (fun t =>
    Z.max 0 ((year today - year t) * 12 + (month today - month t)))) (nth_error l i).
Proof.
  unfold meses_values. rewrite !map_map, nth_error_map.
  destruct (nth_error l i) as [[b|]|]; reflexivity.
Qed.

Lemma future_birth_age (today b : timestamp) :
  today <= b -> Z.max 0 (timedelta_days (today - b) / 365) = 0.
Proof.
  intros H. apply Z.max_l. unfold timedelta_days, NS_PER_DAY.
  apply Z.div_le_upper_bound; [lia|].
  assert ((today - b) / (86400 * 1000000000) <= 0)
    by (apply Z.div_le_upper_bound; lia).
  lia.
Qed.

Section AgeTenure.

Variable pd : list (option string) -> string -> option timestamp.
Variable pn : string -> option float.
Variable ec : float -> option timestamp.

Lemma prepared_idade (today : timestamp) (raw : DataFrame) :
  prepared_col pd pn ec today raw "Idade" =
  match trimmed raw "Data de Nascimento" with
  | Some v => Some (int_series (idade_values (deltas today (to_datetime pd ec v))))
  | None => trimmed raw "Idade"
  end.
Proof. reflexivity. Qed.

Lemma prepared_tempo (today : timestamp) (raw : DataFrame) :
  prepared_col pd pn ec today raw "Tempo de Casa (meses)" =
  match trimmed raw "Data de Contratacao" with
  | Some v => Some (int_series (meses_values today (to_datetime pd ec v)))
  | None => trimmed raw "Tempo de Casa (meses)"
  end.
Proof. reflexivity. Qed.

Lemma prepared_nascimento (today : timestamp) (raw : DataFrame) :
  prepared_col pd pn ec today raw "Data de Nascimento" =
  option_map (fun v => DateCol (to_datetime pd ec v)) (trimmed raw "Data de Nascimento").
Proof. reflexivity. Qed.

Lemma prepared_contratacao (today : timestamp) (raw : DataFrame) :
  prepared_col pd pn ec today raw "Data de Contratacao" =
  option_map (fun v => DateCol (to_datetime pd ec v)) (trimmed raw "Data de Contratacao").
Proof. reflexivity. Qed.

(** C6: when the raw table has a birth-date column, the Age column of the
    prepared table holds, row by row, nothing where the birth date is
    missing and otherwise the float of an integer that is never negative,
    and that is 0 when the birth date is not before today. The same holds
    of the tenure in months and the hire-date column: never negative, and
    0 when the count of months from the hire date to today is not
    positive. *)
Theorem C6_idade_tempo_nonneg (today : timestamp) (raw d : DataFrame) :
  wf raw ->
  prepare_df pd pn ec today raw = Ok d ->
  (df_get raw "Data de Nascimento" <> None ->
   exists births ages,
     df_get d "Data de Nascimento" = Some (DateCol births) /\
     df_get d "Idade" = Some (int_series ages) /\
     List.length ages = List.length births /\
     forall i,
       (nth_error births i = Some None -> nth_error ages i = Some None) /\
       (forall b, nth_error births i = Some (Some b) ->
                  exists z, nth_error ages i = Some (Some z) /\ 0 <= z /\
                            (today <= b -> z = 0))) /\
  (df_get raw "Data de Contratacao" <> None ->
   exists hires meses,
     df_get d "Data de Contratacao" = Some (DateCol hires) /\
     df_get d "Tempo de Casa (meses)" = Some (int_series meses) /\
     List.length meses = List.length hires /\
     forall i,
       (nth_error hires i = Some None -> nth_error meses i = Some None) /\
       (forall t, nth_error hires i = Some (Some t) ->
                  exists z, nth_error meses i = Some (Some z) /\ 0 <= z /\
                            ((year today - year t) * 12 + (month today - month t) <= 0 ->
                             z = 0))).
Proof.
  intros W H. destruct (@prepare_df_get pd pn ec today raw d (proj1 W) H) as [_ G].
  split.
  - intros E. destruct (df_get raw "Data de Nascimento") as [v|] eqn:Ev; [|congruence].
    exists (to_datetime pd ec (trim_col v)).
    exists (idade_values (deltas today (to_datetime pd ec (trim_col v)))).
    split; [rewrite G, prepared_nascimento; unfold trimmed; now rewrite Ev|].
    split; [rewrite G, prepared_idade; unfold trimmed; now rewrite Ev|].
    split; [unfold idade_values, deltas; now rewrite !length_map|].
    intros i. rewrite idade_values_cell. split.
    + intros ->. reflexivity.
    + intros b ->. eexists. split; [reflexivity|]. split; [lia|].
      apply future_birth_age.
  - intros E. destruct (df_get raw "Data de Contratacao") as [v|] eqn:Ev; [|congruence].
    exists (to_datetime pd ec (trim_col v)).
    exists (meses_values today (to_datetime pd ec (trim_col v))).
    split; [rewrite G, prepared_contratacao; unfold trimmed; now rewrite Ev|].
    split; [rewrite G, prepared_tempo; unfold trimmed; now rewrite Ev|].
    split; [unfold meses_values; now rewrite !length_map|].
    intros i. rewrite meses_values_cell. split.
    + intros ->. reflexivity.
    + intros t ->. eexists. split; [reflexivity|]. split; lia.
Qed.

End AgeTenure.

Lemma C6_idade_tempo_nonneg_witness :
  wf Samples.staff /\
  Reference.prepare Reference.a_today Samples.staff = Ok Samples.staff_prepared /\
  df_get Samples.staff "Data de Nascimento" <> None /\
  exists births ages,
    df_get Samples.staff_prepared "Data de Nascimento" = Some (DateCol births) /\
    df_get Samples.staff_prepared "Idade" = Some (int_series ages) /\
    List.length ages = List.length births /\
    forall i,
      (nth_error births i = Some None -> nth_error ages i = Some None) /\
      (forall b, nth_error births i = Some (Some b) ->
                 exists z, nth_error ages i = Some (Some z) /\ 0 <= z /\
                           (Reference.a_today <= b -> z = 0)).
Proof.
  assert (W : wf Samples.staff) by wf_table.
  assert (R : Reference.prepare Reference.a_today Samples.staff = Ok Samples.staff_prepared)
    by (vm_compute; reflexivity).
  assert (N : df_get Samples.staff "Data de Nascimento" <> None)
    by (vm_compute; discriminate).
  split; [exact W|]. split; [exact R|]. split; [exact N|].
  exact (proj1 (@C6_idade_tempo_nonneg (fun _ => Reference.parse_dmy)
                  Reference.parse_decimal Reference.trunc_cast
                  Reference.a_today Samples.staff Samples.staff_prepared W R) N).
Defined.

(** ** Columns the script does not know *)

Lemma trim_col_cells (v : column) :
  trim_col v =
  match v with
  | ObjCol l => ObjCol (map (fun o => Some (PyStr.strip match o with
                                                         | Some s => s
                                                         | None => "nan"
                                                         end)) l)
  | _ => v
  end.
Proof.
  destruct v as [l|l|l]; try reflexivity. cbn. unfold str_strip, astype_str.
  rewrite map_map. f_equal. apply map_ext. intros [s|]; reflexivity.
Qed.

Section Unknown.

Variable pd : list (option string) -> string -> option timestamp.
Variable pn : string -> option float.
Variable ec : float -> option timestamp.

Lemma prepared_other (today : timestamp) (raw : DataFrame) (c : string) :
  ~ In c RECOGNISED_COLS -> ~ In c DERIVED_COLS ->
  prepared_col pd pn ec today raw c = trimmed raw c.
Proof.
  intros HR HD. unfold prepared_col, mem_string, MONEY_COLS, DATE_COLS.
  cbn [existsb].
  repeat match goal with
         | |- context [String.eqb c ?k] =>
             destruct (String.eqb_spec c k) as [->|_];
             [exfalso; first [apply HR; cbn; tauto | apply HD; cbn; tauto]|]
         end.
  reflexivity.
Qed.

(** C5, as the code has it: a column whose name is neither a recognised
    input column nor one of the four derived columns is in the prepared
    table; if it is not text-typed its values are those of the raw table,
    and if it is text-typed every cell is the stripped text of the raw
    cell, the text "nan" standing for a missing cell. *)
Theorem C5_unknown_columns_trimmed
  (today : timestamp) (raw d : DataFrame) (c : string) (v : column) :
  wf raw ->
  prepare_df pd pn ec today raw = Ok d ->
  ~ In c RECOGNISED_COLS -> ~ In c DERIVED_COLS ->
  df_get raw c = Some v ->
  df_get d c =
  Some match v with
       | ObjCol l => ObjCol (map (fun o => Some (PyStr.strip match o with
                                                              | Some s => s
                                                              | None => "nan"
                                                              end)) l)
       | _ => v
       end.
Proof.
  intros W H HR HD E.
  destruct (@prepare_df_get pd pn ec today raw d (proj1 W) H) as [_ G].
  rewrite G, prepared_other by assumption. unfold trimmed. rewrite E.
  cbn [option_map]. now rewrite trim_col_cells.
Qed.

End Unknown.

Lemma C5_unknown_columns_trimmed_witness :
  wf Samples.staff /\
  Reference.prepare Reference.a_today Samples.staff = Ok Samples.staff_prepared /\
  ~ In "Obs" RECOGNISED_COLS /\ ~ In "Obs" DERIVED_COLS /\
  df_get Samples.staff "Obs" = Some (ObjCol [Some " x "; None; Some "ok"]) /\
  df_get Samples.staff_prepared "Obs" =
  Some (ObjCol (map (fun o => Some (PyStr.strip match o with
                                                | Some s => s
                                                | None => "nan"
                                                end)) [Some " x "; None; Some "ok"])).
Proof.
  assert (W : wf Samples.staff) by wf_table.
  assert (R : Reference.prepare Reference.a_today Samples.staff = Ok Samples.staff_prepared)
    by (vm_compute; reflexivity).
  assert (HR : ~ In "Obs" RECOGNISED_COLS)
    by (cbn; intros H; repeat (destruct H as [H|H]; [discriminate H|]); exact H).
  assert (HD : ~ In "Obs" DERIVED_COLS)
    by (cbn; intros H; repeat (destruct H as [H|H]; [discriminate H|]); exact H).
  assert (E : df_get Samples.staff "Obs" = Some (ObjCol [Some " x "; None; Some "ok"]))
    by reflexivity.
  split; [exact W|]. split; [exact R|]. split; [exact HR|]. split; [exact HD|].
  split; [exact E|].
  exact (@C5_unknown_columns_trimmed (fun _ => Reference.parse_dmy)
           Reference.parse_decimal Reference.trunc_cast
           Reference.a_today Samples.staff Samples.staff_prepared "Obs" _ W R HR HD E).
Defined.

(** C5 as stated fails: a padded note in a column the script does not know
    comes back stripped. *)
Lemma C5_padded_note_is_stripped :
  ~ In "Obs" RECOGNISED_COLS /\
  df_get Samples.padded_note "Obs" = Some (ObjCol [Some " x "]) /\
  bind (Reference.prepare Reference.a_today Samples.padded_note)
       (fun d => getitem d "Obs") = Ok (ObjCol [Some "x"]) /\
  ObjCol [Some "x"] <> ObjCol [Some " x "].
Proof.
  split; [cbn; intros H; repeat (destruct H as [H|H]; [discriminate H|]); exact H|].
  split; [reflexivity|]. split; [vm_compute; reflexivity|]. intros H. discriminate H.
Qed.

(** ** Lines 180-186 on a table without records *)

Lemma NaN_neq_zero : NaN <> 0%float.
Proof.
  intros H. assert (E : isnan NaN = isnan 0%float) by (now rewrite H).
  vm_compute in E. discriminate E.
Qed.

Lemma empty_text_column (raw : DataFrame) (c : string) (v : column) :
  wf raw -> nrows raw = 0%nat ->
  Forall (fun kv => is_object (snd kv) = true) (columns raw) ->
  df_get raw c = Some v -> v = ObjCol [].
Proof.
  intros W N F E. pose proof (wf_col_len c W E) as L. rewrite N in L.
  assert (O : is_object v = true).
  { clear L W N. unfold df_get in E.
    induction (columns raw) as [|[k w] r IH]; cbn in E; [discriminate|].
    inversion F as [|? ? Hw Hr]; subst.
    destruct (String.eqb c k); [inversion E; subst; exact Hw|now apply IH]. }
  destruct v as [l|l|l]; try discriminate O.
  destruct l; [reflexivity|discriminate L].
Qed.

Section EmptyTable.

Variable pd : list (option string) -> string -> option timestamp.
Variable pn : string -> option float.
Variable ec : float -> option timestamp.

Lemma trimmed_empty (raw : DataFrame) (c : string) :
  wf raw -> nrows raw = 0%nat ->
  Forall (fun kv => is_object (snd kv) = true) (columns raw) ->
  trimmed raw c = option_map (fun _ => ObjCol []) (df_get raw c).
Proof.
  intros W N F. unfold trimmed.
  destruct (df_get raw c) as [v|] eqn:E; [|reflexivity].
  now rewrite (empty_text_column c W N F E).
Qed.

(** C4, as the code has it: on a table without records in which every
    column is text-typed, as the reader yields for a sheet that has only
    its header row, the preparer succeeds and no indicator raises; the
    active headcount and the terminated count are 0, the payroll total and
    the total cost are 0.0; the average age is 0 when the raw table has
    neither a birth-date nor an age column and NaN otherwise, and the
    average rating is 0 when the raw table has no rating column and NaN
    otherwise. *)
Theorem C4_indicators_on_empty_table (today : timestamp) (raw : DataFrame) :
  wf raw -> nrows raw = 0%nat ->
  Forall (fun kv => is_object (snd kv) = true) (columns raw) ->
  exists d,
    prepare_df pd pn ec today raw = Ok d /\
    k_headcount_ativo d = Ok (PInt 0) /\
    k_desligados d = Ok (PInt 0) /\
    k_folha d = Ok (PFloat 0) /\
    k_custo_total d = Ok (PFloat 0) /\
    k_idade_media d =
    Ok match df_get raw "Data de Nascimento", df_get raw "Idade" with
       | None, None => PInt 0
       | _, _ => PFloat NaN
       end /\
    k_avaliacao_media d =
    Ok match df_get raw "Avaliação do Funcionário" with
       | None => PInt 0
       | Some _ => PFloat NaN
       end.
Proof.
  intros W N F.
  destruct (@prepare_df_spec pd pn ec today raw (proj1 W)) as [d [H [_ G]]].
  { intros v E. now rewrite (empty_text_column "Sexo" W N F E). }
  { unfold birth_dates. rewrite trimmed_empty by assumption.
    destruct (df_get raw "Data de Nascimento"); reflexivity. }
  exists d. split; [exact H|].
  assert (Gs : df_get d "Status" = Some (ObjCol [])).
  { rewrite G, prepared_status, trimmed_empty, N by assumption.
    destruct (df_get raw "Data de Demissao"); reflexivity. }
  assert (Gm : df_get d "Salario Base" = Some (NumCol [])).
  { rewrite G, (@prepared_money pd pn ec today raw "Salario Base") by (cbn; tauto).
    rewrite trimmed_empty, N by assumption.
    destruct (df_get raw "Salario Base"); reflexivity. }
  assert (Gc : df_get d "Custo Total Mensal" = Some (NumCol [])).
  { rewrite G, prepared_custo, N. reflexivity. }
  split; [unfold k_headcount_ativo, getitem; now rewrite Gs|].
  split; [unfold k_desligados, getitem; now rewrite Gs|].
  split; [unfold k_folha, getitem; now rewrite Gs, Gm|].
  split; [unfold k_custo_total, getitem; now rewrite Gs, Gc|].
  split.
  - unfold k_idade_media. rewrite G, prepared_idade.
    rewrite !trimmed_empty by assumption.
    destruct (df_get raw "Data de Nascimento"); [reflexivity|].
    destruct (df_get raw "Idade"); reflexivity.
  - unfold k_avaliacao_media. rewrite G, prepared_other.
    + rewrite trimmed_empty by assumption.
      destruct (df_get raw "Avaliação do Funcionário"); reflexivity.
    + cbn; intros X; repeat (destruct X as [X|X]; [discriminate X|]); exact X.
    + cbn; intros X; repeat (destruct X as [X|X]; [discriminate X|]); exact X.
Qed.

End EmptyTable.

Lemma C4_indicators_on_empty_table_witness :
  wf Samples.header_only /\ nrows Samples.header_only = 0%nat /\
  Forall (fun kv => is_object (snd kv) = true) (columns Samples.header_only) /\
  exists d,
    Reference.prepare Reference.a_today Samples.header_only = Ok d /\
    k_headcount_ativo d = Ok (PInt 0) /\
    k_desligados d = Ok (PInt 0) /\
    k_folha d = Ok (PFloat 0) /\
    k_custo_total d = Ok (PFloat 0) /\
    k_idade_media d =
    Ok match df_get Samples.header_only "Data de Nascimento",
             df_get Samples.header_only "Idade" with
       | None, None => PInt 0
       | _, _ => PFloat NaN
       end /\
    k_avaliacao_media d =
    Ok match df_get Samples.header_only "Avaliação do Funcionário" with
       | None => PInt 0
       | Some _ => PFloat NaN
       end.
Proof.
  assert (W : wf Samples.header_only) by wf_table.
  assert (N : nrows Samples.header_only = 0%nat) by reflexivity.
  assert (F : Forall (fun kv => is_object (snd kv) = true) (columns Samples.header_only))
    by (repeat constructor).
  split; [exact W|]. split; [exact N|]. split; [exact F|].
  exact (@C4_indicators_on_empty_table (fun _ => Reference.parse_dmy)
           Reference.parse_decimal Reference.trunc_cast
           Reference.a_today Samples.header_only W N F).
Defined.

(** C4 as stated fails: on a sheet that has only its header row, with a
    birth-date column, the average age is NaN, which is neither the integer
    0 nor the float 0.0. *)
Lemma C4_average_age_of_no_record_is_nan :
  nrows Samples.header_only = 0%nat /\
  bind (Reference.prepare Reference.a_today Samples.header_only) k_idade_media
  = Ok (PFloat NaN) /\
  PFloat NaN <> PInt 0 /\ PFloat NaN <> PFloat 0.
Proof.
  split; [reflexivity|]. split; [vm_compute; reflexivity|].
  split; [intros H; discriminate H|].
  intros H. apply NaN_neq_zero. now inversion H.
Qed.

(** ** Unreadable dates and amounts *)

Section BadValues.

Variable pd : list (option string) -> string -> option timestamp.
Variable pn : string -> option float.
Variable ec : float -> option timestamp.



Lemma prepared_date (today : timestamp) (raw : DataFrame) (c : string) :
  In c DATE_COLS ->
  prepared_col pd pn ec today raw c =
  option_map (fun v => DateCol (to_datetime pd ec v)) (trimmed raw c).
Proof.
  intros H. cbn in H.
  repeat (destruct H as [<-|H]; [reflexivity|]). contradiction.
Qed.



End BadValues.



(** A birth date of 1 January 1700 is a date pandas reads, 326 years before
    4 November 2026: the difference of line 123 does not fit int64 and the
    preparer raises. *)
Example born_1700_overflows :
  wf Samples.born_1700 /\
  Reference.prepare Reference.a_today Samples.born_1700 = Raise OverflowError.
Proof. split; [wf_table|vm_compute; reflexivity]. Qed.

(** ** The shape of the prepared table *)

Lemma alist_set_names (c : string) (v : column) (cols : list (string * column)) :
  map fst (alist_set c v cols) =
  (map fst cols ++ (if mem_string c (map fst cols) then [] else [c]))%list.
Proof.
  unfold mem_string. induction cols as [|[k w] r IH]; cbn; [reflexivity|].
  destruct (String.eqb c k) eqn:E; cbn.
  - now rewrite app_nil_r.
  - now rewrite IH.
Qed.

Lemma mem_string_In (c : string) (l : list string) :
  mem_string c l = true <-> In c l.
Proof.
  unfold mem_string. rewrite existsb_exists. split.
  - intros [x [Hx E]]. apply String.eqb_eq in E. now subst.
  - intros H. exists c. split; [assumption|apply String.eqb_refl].
Qed.

Lemma df_get_In (d : DataFrame) (c : string) :
  df_get d c <> None <-> In c (names d).
Proof.
  unfold df_get, names. induction (columns d) as [|[k w] r IH]; cbn.
  - split; [congruence|contradiction].
  - destruct (String.eqb_spec c k) as [->|N].
    + split; [now left|congruence].
    + rewrite IH. split; [now right|]. intros [E|H]; [congruence|exact H].
Qed.

Lemma df_get_In_columns (d : DataFrame) (c : string) (v : column) :
  NoDup (names d) -> In (c, v) (columns d) -> df_get d c = Some v.
Proof.
  unfold df_get, names. induction (columns d) as [|[k w] r IH]; cbn; [contradiction|].
  intros ND H. inversion ND as [|? ? Hk ND']; subst.
  destruct H as [E|H].
  - inversion E; subst. now rewrite String.eqb_refl.
  - destruct (String.eqb_spec c k) as [->|_]; [|now apply IH].
    exfalso. apply Hk. change k with (fst (k, v)). now apply in_map.
Qed.

Lemma grows_refl (d : DataFrame) : wf d -> grows d d.
Proof.
  intros W. split; [exact W|]. split; [reflexivity|]. exists []. now rewrite app_nil_r.
Qed.

Lemma grows_trans (d1 d2 d3 : DataFrame) :
  grows d1 d2 -> grows d2 d3 -> grows d1 d3.
Proof.
  intros [_ [N1 [a1 E1]]] [W [N2 [a2 E2]]].
  split; [exact W|]. split; [congruence|].
  exists (a1 ++ a2)%list. now rewrite E2, E1, app_assoc.
Qed.

Lemma grows_set (d : DataFrame) (c : string) (v : column) :
  wf d -> col_len v = nrows d -> grows d (df_set d c v).
Proof.
  intros [ND F] L. unfold grows, wf, names, df_set. cbn [columns nrows].
  rewrite alist_set_names.
  split; [split|split; [reflexivity|eexists; reflexivity]].
  - destruct (mem_string c (map fst (columns d))) eqn:E.
    + now rewrite app_nil_r.
    + apply NoDup_app; [exact ND|repeat constructor; intros []|].
      intros x Hx [<-|[]]. apply mem_string_In in Hx. congruence.
  - clear ND. induction (columns d) as [|[k w] r IH]; cbn.
    + repeat constructor. exact L.
    + inversion F as [|? ? Hw Hr]; subst.
      destruct (String.eqb c k); constructor; auto.
Qed.

Lemma grows_update (d : DataFrame) (c : string) (f : column -> column) :
  wf d -> (forall v, col_len (f v) = col_len v) -> grows d (df_update d c f).
Proof.
  intros W Hf. unfold df_update. destruct (df_get d c) as [v|] eqn:E.
  - apply grows_set; [exact W|]. rewrite Hf. now apply wf_col_len with (c := c).
  - now apply grows_refl.
Qed.

Lemma grows_trim_fold (sel : list (string * list (option string))) :
  forall d,
    wf d ->
    Forall (fun kv => List.length (snd kv) = nrows d) sel ->
    grows d (fold_left (fun d kv => df_set d (fst kv)
                          (ObjCol (str_strip (astype_str (snd kv))))) sel d).
Proof.
  induction sel as [|[k l] r IH]; intros d W F; cbn [fold_left].
  - now apply grows_refl.
  - inversion F as [|? ? Hl Hr]; subst. cbn [fst snd] in *.
    assert (G : grows d (df_set d k (ObjCol (str_strip (astype_str l))))).
    { apply grows_set; [exact W|]. cbn. unfold str_strip, astype_str.
      now rewrite !length_map. }
    eapply grows_trans; [exact G|]. apply IH; [apply G|exact Hr].
Qed.

Lemma select_lengths (d : DataFrame) :
  wf d -> Forall (fun kv => List.length (snd kv) = nrows d) (select_dtypes_object d).
Proof.
  intros [_ F]. unfold select_dtypes_object.
  induction (columns d) as [|[k v] r IH]; cbn; [constructor|].
  inversion F as [|? ? Hv Hr]; subst.
  destruct v as [l|l|l]; cbn; auto.
Qed.

Lemma grows_trim_step (d : DataFrame) : wf d -> grows d (trim_step d).
Proof. intros W. apply grows_trim_fold; [exact W|now apply select_lengths]. Qed.

Lemma grows_fold {A : Type} (f : DataFrame -> A -> DataFrame) (l : list A) :
  (forall d a, wf d -> grows d (f d a)) ->
  forall d, wf d -> grows d (fold_left f l d).
Proof.
  intros Hf. induction l as [|a r IH]; intros d W; cbn [fold_left].
  - now apply grows_refl.
  - eapply grows_trans; [apply Hf; exact W|]. apply IH. now apply Hf.
Qed.

Section Shape.

Variable pd : list (option string) -> string -> option timestamp.
Variable pn : string -> option float.
Variable ec : float -> option timestamp.

Lemma grows_date_step (d : DataFrame) : wf d -> grows d (date_step pd ec d).
Proof.
  unfold date_step. apply grows_fold. intros d0 c W.
  apply grows_update; [exact W|]. intros v. apply length_to_datetime.
Qed.

Lemma grows_sexo_step (d d' : DataFrame) :
  wf d -> sexo_step d = Ok d' -> grows d d'.
Proof.
  intros W. unfold sexo_step. destruct (df_get d "Sexo") as [v|] eqn:E.
  - destruct v as [l|l|l]; cbn; intros H; inversion H; subst.
    apply grows_set; [exact W|]. cbn. unfold replace. rewrite !length_map.
    now apply (wf_col_len "Sexo" W E).
  - intros H; inversion H; subst. now apply grows_refl.
Qed.

Lemma grows_money_col_step (d : DataFrame) (col : string) :
  wf d -> grows d (money_col_step pn d col).
Proof.
  intros W. unfold money_col_step.
  destruct (df_get d col) as [v|] eqn:E.
  - rewrite E. apply grows_set; [exact W|]. cbn. unfold fillna.
    rewrite length_map, length_to_numeric. now apply (wf_col_len col W E).
  - rewrite df_get_set, String.eqb_refl.
    assert (G : grows d (df_set d col (NumCol (repeat 0%float (nrows d))))).
    { apply grows_set; [exact W|]. cbn. apply repeat_length. }
    eapply grows_trans; [exact G|].
    apply grows_set; [apply G|]. cbn. unfold fillna.
    now rewrite !length_map, repeat_length.
Qed.

Lemma grows_money_step (d : DataFrame) : wf d -> grows d (money_step pn d).
Proof. unfold money_step. apply grows_fold. intros d0 c. apply grows_money_col_step. Qed.

Lemma grows_idade_step (today : timestamp) (d d' : DataFrame) :
  wf d -> idade_step today d = Ok d' -> grows d d'.
Proof.
  intros W. unfold idade_step.
  destruct (df_get d "Data de Nascimento") as [[l|l|l]|] eqn:E;
    try discriminate; [|intros H; inversion H; subst; now apply grows_refl].
  destruct (rsub_dates today l) as [tds|e] eqn:R; cbn [bind]; [|discriminate].
  intros H; inversion H; subst.
  destruct (rsub_dates_inv _ _ R) as [_ ->].
  apply grows_set; [exact W|]. cbn. unfold idade_values, deltas. rewrite !length_map.
  now apply (wf_col_len "Data de Nascimento" W E).
Qed.

Lemma grows_tempo_step (today : timestamp) (d d' : DataFrame) :
  wf d -> tempo_step today d = Ok d' -> grows d d'.
Proof.
  intros W. unfold tempo_step.
  destruct (df_get d "Data de Contratacao") as [[l|l|l]|] eqn:E;
    intros H; inversion H; subst; [|now apply grows_refl].
  apply grows_set; [exact W|]. cbn. unfold meses_values. rewrite !length_map.
  now apply (wf_col_len "Data de Contratacao" W E).
Qed.

Lemma grows_status_step (d : DataFrame) : wf d -> grows d (status_step d).
Proof.
  intros W. unfold status_step.
  destruct (df_get d "Data de Demissao") as [v|] eqn:E; apply grows_set; try exact W; cbn.
  - unfold np_where. rewrite length_map.
    rewrite <- (wf_col_len "Data de Demissao" W E).
    destruct v as [l|l|l]; cbn; now rewrite length_map.
  - apply repeat_length.
Qed.

Lemma grows_custo_step (d d' : DataFrame) :
  wf d -> custo_step d = Ok d' -> grows d d'.
Proof.
  intros W. unfold custo_step.
  destruct (getitems d MONEY_COLS) as [cs|]; cbn [bind]; [|discriminate].
  destruct (numeric_payloads cs) as [ls|]; cbn [bind]; [|discriminate].
  intros H; inversion H; subst. apply grows_set; [exact W|]. cbn.
  unfold sum_axis1. now rewrite length_map, length_seq.
Qed.

Lemma prepare_df_grows (today : timestamp) (raw d : DataFrame) :
  wf raw -> prepare_df pd pn ec today raw = Ok d -> grows raw d.
Proof.
  intros W. unfold prepare_df.
  pose proof (grows_trim_step W) as G1.
  pose proof (grows_date_step (proj1 G1)) as G2.
  destruct (sexo_step _) as [d3|] eqn:E3; cbn [bind]; [|discriminate].
  pose proof (grows_sexo_step (proj1 G2) E3) as G3.
  pose proof (grows_money_step (proj1 G3)) as G4.
  destruct (idade_step today _) as [d5|] eqn:E5; cbn [bind]; [|discriminate].
  pose proof (grows_idade_step today (proj1 G4) E5) as G5.
  destruct (tempo_step today d5) as [d6|] eqn:E6; cbn [bind]; [|discriminate].
  pose proof (grows_tempo_step today (proj1 G5) E6) as G6.
  pose proof (grows_status_step (proj1 G6)) as G7.
  intros H. pose proof (grows_custo_step (proj1 G7) H) as G8.
  exact (grows_trans G1 (grows_trans G2 (grows_trans G3 (grows_trans G4
           (grows_trans G5 (grows_trans G6 (grows_trans G7 G8))))))).
Qed.

Lemma prepared_col_absent (today : timestamp) (raw : DataFrame) (c : string) :
  df_get raw c = None ->
  ~ In c MONEY_COLS -> ~ In c DERIVED_COLS ->
  prepared_col pd pn ec today raw c = None.
Proof.
  intros E HM HD. unfold prepared_col, mem_string, MONEY_COLS, DATE_COLS, trimmed.
  cbn [existsb]. rewrite E. cbn [option_map].
  repeat match goal with
         | |- context [String.eqb c ?k] =>
             destruct (String.eqb_spec c k) as [->|_];
             [first [exfalso; first [apply HM; cbn; tauto | apply HD; cbn; tauto]
                    | cbn; try rewrite E; reflexivity]|]
         end.
  reflexivity.
Qed.

(** X1: the prepared table is well formed (distinct names, every column as
    long as the table), has as many rows as the raw table, lists the raw
    columns first and in their order, and every column it appends is one of
    the five money columns or one of the four derived columns. *)
Theorem X1_prepared_table_shape (today : timestamp) (raw d : DataFrame) :
  wf raw ->
  prepare_df pd pn ec today raw = Ok d ->
  wf d /\ nrows d = nrows raw /\
  exists added,
    names d = (names raw ++ added)%list /\
    forall c, In c added -> In c (MONEY_COLS ++ DERIVED_COLS)%list.
Proof.
  intros W H. destruct (prepare_df_grows today W H) as [Wd [N [added E]]].
  split; [exact Wd|]. split; [exact N|]. exists added. split; [exact E|].
  intros c Hc.
  destruct (@prepare_df_get pd pn ec today raw d (proj1 W) H) as [_ G].
  assert (Hd : df_get d c <> None).
  { apply df_get_In. rewrite E. apply in_or_app. now right. }
  assert (Hr : df_get raw c = None).
  { destruct (df_get raw c) eqn:Er; [|reflexivity]. exfalso.
    assert (Hin : In c (names raw)) by (apply df_get_In; congruence).
    destruct Wd as [ND _]. fold (names d) in ND. rewrite E in ND.
    apply NoDup_app_remove_l in ND as ND2.
    clear -ND Hin Hc. induction (names raw) as [|k r IH]; [contradiction|].
    cbn in ND. inversion ND as [|? ? Hk ND']; subst.
    destruct Hin as [->|Hin]; [apply Hk, in_or_app; now right|now apply IH]. }
  destruct (in_dec string_dec c (MONEY_COLS ++ DERIVED_COLS)%list) as [Y|N'];
    [exact Y|].
  exfalso. apply Hd. rewrite G. apply prepared_col_absent; [exact Hr| |];
    intros X; apply N', in_or_app; tauto.
Qed.

End Shape.

Lemma X1_prepared_table_shape_witness :
  wf Samples.staff /\
  Reference.prepare Reference.a_today Samples.staff = Ok Samples.staff_prepared /\
  wf Samples.staff_prepared /\ nrows Samples.staff_prepared = nrows Samples.staff /\
  exists added,
    names Samples.staff_prepared = (names Samples.staff ++ added)%list /\
    forall c, In c added -> In c (MONEY_COLS ++ DERIVED_COLS)%list.
Proof.
  assert (W : wf Samples.staff) by wf_table.
  assert (R : Reference.prepare Reference.a_today Samples.staff = Ok Samples.staff_prepared)
    by (vm_compute; reflexivity).
  split; [exact W|]. split; [exact R|].
  exact (@X1_prepared_table_shape (fun _ => Reference.parse_dmy)
           Reference.parse_decimal Reference.trunc_cast
           Reference.a_today Samples.staff Samples.staff_prepared W R).
Defined.

(** ** Preparing a prepared table *)

Lemma is_space_upper_char (c : ascii) :
  PyStr.is_space (PyStr.upper_char c) = PyStr.is_space c.
Proof. destruct c as [[] [] [] [] [] [] [] []]; reflexivity. Qed.

Lemma lstrip_upper (s : string) :
  PyStr.lstrip (PyStr.upper s) = PyStr.upper (PyStr.lstrip s).
Proof.
  induction s as [|c r IH]; [reflexivity|]. cbn [PyStr.upper PyStr.lstrip].
  rewrite is_space_upper_char. destruct (PyStr.is_space c); [exact IH|reflexivity].
Qed.

Lemma rstrip_upper (s : string) :
  PyStr.rstrip (PyStr.upper s) = PyStr.upper (PyStr.rstrip s).
Proof.
  induction s as [|c r IH]; [reflexivity|]. cbn [PyStr.upper PyStr.rstrip].
  rewrite IH, is_space_upper_char.
  destruct (PyStr.rstrip r); cbn [PyStr.upper]; [|reflexivity].
  destruct (PyStr.is_space c); reflexivity.
Qed.

Lemma strip_upper (s : string) :
  PyStr.strip (PyStr.upper s) = PyStr.upper (PyStr.strip s).
Proof. unfold PyStr.strip. now rewrite lstrip_upper, rstrip_upper. Qed.

Lemma rstrip_cons (c : ascii) (r : string) :
  PyStr.rstrip (String c r) =
  match PyStr.rstrip r with
  | EmptyString => if PyStr.is_space c then EmptyString else String c EmptyString
  | r' => String c r'
  end.
Proof. reflexivity. Qed.

Lemma rstrip_idem (s : string) : PyStr.rstrip (PyStr.rstrip s) = PyStr.rstrip s.
Proof.
  induction s as [|c r IH]; [reflexivity|]. rewrite rstrip_cons.
  destruct (PyStr.rstrip r) as [|c' r'] eqn:E.
  - destruct (PyStr.is_space c) eqn:Ec; [reflexivity|]. cbn. now rewrite Ec.
  - rewrite rstrip_cons, IH. reflexivity.
Qed.

Lemma lstrip_rstrip_lstrip (s : string) :
  PyStr.lstrip (PyStr.rstrip (PyStr.lstrip s)) = PyStr.rstrip (PyStr.lstrip s).
Proof.
  induction s as [|c r IH]; [reflexivity|]. cbn [PyStr.lstrip].
  destruct (PyStr.is_space c) eqn:Ec; [exact IH|].
  rewrite rstrip_cons, Ec. destruct (PyStr.rstrip r); cbn [PyStr.lstrip]; now rewrite Ec.
Qed.

Lemma strip_idem (s : string) : PyStr.strip (PyStr.strip s) = PyStr.strip s.
Proof.
  unfold PyStr.strip. now rewrite lstrip_rstrip_lstrip, rstrip_idem.
Qed.

Lemma trim_col_idem (v : column) : trim_col (trim_col v) = trim_col v.
Proof.
  destruct v as [l|l|l]; try reflexivity. cbn. f_equal.
  unfold str_strip, astype_str. rewrite !map_map. apply map_ext.
  intros [s|]; cbn [option_map]; now rewrite strip_idem.
Qed.

Lemma replace_upper (l : list (option string)) :
  replace SEXO_MAP (map (option_map PyStr.upper) l) = map (option_map sexo_text) l.
Proof.
  pose proof (sexo_canon_obj l) as H. unfold sexo_canon, str_upper in H.
  cbn [bind] in H. now inversion H.
Qed.

Lemma strip_sexo_text (t : string) :
  PyStr.strip t = t -> PyStr.strip (sexo_text t) = sexo_text t.
Proof.
  intros H. unfold sexo_text.
  destruct (String.eqb (PyStr.upper t) "MASCULINO"); [reflexivity|].
  destruct (String.eqb (PyStr.upper t) "FEMININO"); [reflexivity|].
  now rewrite strip_upper, H.
Qed.

Lemma trim_sexo_cells (l : list (option string)) :
  trim_col (ObjCol (map (option_map sexo_text) (str_strip (astype_str l)))) =
  ObjCol (map (option_map sexo_text) (str_strip (astype_str l))).
Proof.
  cbn [trim_col]. f_equal. unfold str_strip, astype_str. rewrite !map_map.
  apply map_ext. intros [s|]; cbn [option_map]; f_equal;
    apply strip_sexo_text, strip_idem.
Qed.

Lemma trim_np_where (mask : list bool) :
  trim_col (ObjCol (np_where mask "Desligado" "Ativo")) =
  ObjCol (np_where mask "Desligado" "Ativo").
Proof.
  cbn [trim_col]. f_equal. unfold str_strip, astype_str, np_where. rewrite !map_map.
  apply map_ext. intros []; reflexivity.
Qed.

Lemma trim_all_ativo (n : nat) :
  trim_col (ObjCol (repeat (Some "Ativo") n)) = ObjCol (repeat (Some "Ativo") n).
Proof.
  cbn [trim_col]. f_equal. unfold str_strip, astype_str. now rewrite !map_repeat.
Qed.

Section Idempotence.

Variable pd : list (option string) -> string -> option timestamp.
Variable pn : string -> option float.
Variable ec : float -> option timestamp.

Lemma money_values_again (n : nat) (oc : option column) :
  money_values pn n (Some (NumCol (money_values pn n oc))) = money_values pn n oc.
Proof.
  unfold money_values at 1. cbn [to_numeric]. apply fillna_clean, money_values_no_nan.
Qed.

Lemma prepared_trimmed (today : timestamp) (raw : DataFrame) (c : string) (v : column) :
  prepared_col pd pn ec today raw c = Some v -> trim_col v = v.
Proof.
  unfold prepared_col, trimmed.
  destruct (String.eqb c "Custo Total Mensal");
    [intros H; inversion H; reflexivity|].
  destruct (String.eqb c "Status").
  { destruct (df_get raw "Data de Demissao"); cbn [option_map];
      intros H; inversion H; [apply trim_np_where|apply trim_all_ativo]. }
  destruct (String.eqb c "Tempo de Casa (meses)").
  { destruct (df_get raw "Data de Contratacao"); cbn [option_map].
    - intros H; inversion H; reflexivity.
    - destruct (df_get raw c); cbn [option_map]; intros H; inversion H.
      apply trim_col_idem. }
  destruct (String.eqb c "Idade").
  { destruct (df_get raw "Data de Nascimento"); cbn [option_map].
    - intros H; inversion H; reflexivity.
    - destruct (df_get raw c); cbn [option_map]; intros H; inversion H.
      apply trim_col_idem. }
  destruct (mem_string c MONEY_COLS); [intros H; inversion H; reflexivity|].
  destruct (String.eqb c "Sexo").
  { destruct (df_get raw c) as [[l|l|l]|]; cbn [option_map trim_col];
      intros H; inversion H; try reflexivity.
    rewrite replace_upper. apply trim_sexo_cells. }
  destruct (mem_string c DATE_COLS).
  { destruct (df_get raw c); cbn [option_map]; intros H; inversion H; reflexivity. }
  destruct (df_get raw c); cbn [option_map]; intros H; inversion H.
  apply trim_col_idem.
Qed.

Lemma prepared_sexo (today : timestamp) (raw : DataFrame) :
  prepared_col pd pn ec today raw "Sexo" =
  match trimmed raw "Sexo" with
  | Some (ObjCol l) => Some (ObjCol (replace SEXO_MAP (map (option_map PyStr.upper) l)))
  | other => other
  end.
Proof. reflexivity. Qed.

Lemma birth_dates_again (today : timestamp) (raw d : DataFrame) :
  (forall c, df_get d c = prepared_col pd pn ec today raw c) ->
  birth_dates pd ec d = birth_dates pd ec raw.
Proof.
  intros G. unfold birth_dates, trimmed. rewrite G, prepared_nascimento.
  unfold trimmed. destruct (df_get raw "Data de Nascimento"); reflexivity.
Qed.

Lemma prepared_again (today : timestamp) (raw d : DataFrame) :
  (forall c, df_get d c = prepared_col pd pn ec today raw c) ->
  nrows d = nrows raw ->
  forall c, prepared_col pd pn ec today d c = prepared_col pd pn ec today raw c.
Proof.
  intros G N c.
  assert (TR : forall x, trimmed d x = prepared_col pd pn ec today raw x).
  { intros x. unfold trimmed. rewrite G.
    destruct (prepared_col pd pn ec today raw x) as [v|] eqn:E; cbn [option_map];
      [|reflexivity].
    f_equal. eapply prepared_trimmed. exact E. }
  unfold prepared_col at 1. rewrite N. unfold MONEY_COLS at 1. cbn [map].
  rewrite !TR.
  destruct (String.eqb_spec c "Custo Total Mensal") as [->|_].
  { rewrite prepared_custo. unfold MONEY_COLS. cbn [map].
    rewrite (@prepared_money pd pn ec today raw "Salario Base") by (cbn; tauto).
    rewrite (@prepared_money pd pn ec today raw "Impostos") by (cbn; tauto).
    rewrite (@prepared_money pd pn ec today raw "Beneficios") by (cbn; tauto).
    rewrite (@prepared_money pd pn ec today raw "VT") by (cbn; tauto).
    rewrite (@prepared_money pd pn ec today raw "VR") by (cbn; tauto).
    now rewrite !money_values_again. }
  destruct (String.eqb_spec c "Status") as [->|_].
  { rewrite prepared_demissao, prepared_status.
    destruct (trimmed raw "Data de Demissao"); reflexivity. }
  destruct (String.eqb_spec c "Tempo de Casa (meses)") as [->|_].
  { rewrite prepared_contratacao, prepared_tempo.
    destruct (trimmed raw "Data de Contratacao"); reflexivity. }
  destruct (String.eqb_spec c "Idade") as [->|_].
  { rewrite prepared_nascimento, prepared_idade.
    destruct (trimmed raw "Data de Nascimento"); reflexivity. }
  destruct (mem_string c MONEY_COLS) eqn:EM.
  { apply mem_string_In in EM. rewrite (@prepared_money pd pn ec today raw c EM).
    now rewrite money_values_again. }
  destruct (String.eqb_spec c "Sexo") as [->|_].
  { rewrite prepared_sexo.
    destruct (trimmed raw "Sexo") as [[l|l|l]|]; try reflexivity.
    rewrite !replace_upper, map_map. do 2 f_equal. apply map_ext.
    intros [s|]; cbn [option_map]; [|reflexivity]. now rewrite sexo_text_idem. }
  destruct (mem_string c DATE_COLS) eqn:ED; [|reflexivity].
  apply mem_string_In in ED. rewrite (@prepared_date pd pn ec today raw c ED).
  destruct (trimmed raw c); reflexivity.
Qed.

End Idempotence.

Lemma alist_get_None_names (c : string) (cols : list (string * column)) :
  ~ In c (map fst cols) -> alist_get c cols = None.
Proof.
  induction cols as [|[k v] r IH]; cbn; [reflexivity|]. intros H.
  destruct (String.eqb_spec c k) as [->|_]; [exfalso; auto|]. apply IH; auto.
Qed.

Lemma alist_ext (l1 l2 : list (string * column)) :
  map fst l1 = map fst l2 ->
  NoDup (map fst l1) ->
  (forall c, alist_get c l1 = alist_get c l2) ->
  l1 = l2.
Proof.
  revert l2. induction l1 as [|[k v] r IH]; intros [|[k' v'] r'] E ND H;
    try discriminate E; [reflexivity|].
  cbn in E. inversion E as [[Ek Er]]. subst k'.
  inversion ND as [|? ? Hk ND']; subst.
  pose proof (H k) as Hk0. cbn in Hk0. rewrite String.eqb_refl in Hk0.
  inversion Hk0; subst v'. f_equal. apply IH; [exact Er|exact ND'|].
  intros c. specialize (H c). cbn in H.
  destruct (String.eqb c k) eqn:Eck; [|exact H].
  apply String.eqb_eq in Eck. rewrite Eck.
  rewrite !alist_get_None_names; [reflexivity| |exact Hk]. now rewrite <- Er.
Qed.

Section Again.

Variable pd : list (option string) -> string -> option timestamp.
Variable pn : string -> option float.
Variable ec : float -> option timestamp.

(** X2: preparing a prepared table again, on the same day, succeeds and
    gives back that very table: same columns in the same order, same
    cells. *)
Theorem X2_prepare_df_idempotent (today : timestamp) (raw d : DataFrame) :
  wf raw ->
  prepare_df pd pn ec today raw = Ok d ->
  prepare_df pd pn ec today d = Ok d.
Proof.
  intros W H.
  destruct (@prepare_df_grows pd pn ec today raw d W H) as [Wd _].
  destruct (@prepare_df_get pd pn ec today raw d (proj1 W) H) as [N G].
  assert (S : forall v, df_get d "Sexo" = Some v -> is_object v = true).
  { intros v. rewrite G, prepared_sexo. unfold trimmed.
    destruct (df_get raw "Sexo") as [[l|l|l]|] eqn:E; cbn [option_map trim_col];
      intros X; inversion X; try reflexivity;
      rewrite (@prepare_df_raises pd pn ec today raw _ (proj1 W) E eq_refl) in H;
      discriminate H. }
  destruct (@prepare_df_reach pd pn ec today raw d (proj1 W) H) as [_ HR].
  assert (R : all_dates (reachable today) (birth_dates pd ec d) = true).
  { now rewrite (@birth_dates_again pd pn ec today raw d G). }
  destruct (@prepare_df_spec pd pn ec today d (proj1 Wd) S R) as [d2 [H2 [N2 G2]]].
  rewrite H2. f_equal.
  assert (Gd : forall c, df_get d2 c = df_get d c).
  { intros c. now rewrite G2, (@prepared_again pd pn ec today raw d G N), G. }
  destruct (@prepare_df_grows pd pn ec today d d2 Wd H2) as [Wd2 [_ [added E]]].
  assert (A : added = []).
  { destruct added as [|c r]; [reflexivity|]. exfalso.
    assert (I2 : In c (names d2)) by (rewrite E; apply in_or_app; right; now left).
    apply df_get_In in I2. rewrite Gd in I2. apply df_get_In in I2.
    destruct Wd2 as [ND _]. fold (names d2) in ND. rewrite E in ND.
    clear -ND I2. induction (names d) as [|k l IH]; [contradiction|].
    cbn in ND. inversion ND as [|? ? Hk ND']; subst.
    destruct I2 as [->|I2]; [apply Hk, in_or_app; right; now left|now apply IH]. }
  rewrite A, app_nil_r in E.
  destruct d2 as [n2 c2], d as [n1 c1]. cbn in *. f_equal; [congruence|].
  apply alist_ext; [exact E|apply Wd2|exact Gd].
Qed.

End Again.

Lemma X2_prepare_df_idempotent_witness :
  wf Samples.staff /\
  Reference.prepare Reference.a_today Samples.staff = Ok Samples.staff_prepared /\
  Reference.prepare Reference.a_today Samples.staff_prepared = Ok Samples.staff_prepared.
Proof.
  assert (W : wf Samples.staff) by wf_table.
  assert (R : Reference.prepare Reference.a_today Samples.staff = Ok Samples.staff_prepared)
    by (vm_compute; reflexivity).
  split; [exact W|]. split; [exact R|].
  exact (@X2_prepare_df_idempotent (fun _ => Reference.parse_dmy)
           Reference.parse_decimal Reference.trunc_cast
           Reference.a_today Samples.staff Samples.staff_prepared W R).
Defined.

(** ** The indicators on a prepared table *)

Lemma count_true_nonneg (mask : list bool) : 0 <= count_true mask.
Proof. unfold count_true. lia. Qed.

Lemma count_status_split (sts : list (option string)) :
  Forall (fun o => o = Some "Ativo" \/ o = Some "Desligado") sts ->
  count_true (eq_scalar (ObjCol sts) "Ativo") +
  count_true (eq_scalar (ObjCol sts) "Desligado") = Z.of_nat (List.length sts).
Proof.
  unfold count_true, eq_scalar. induction 1 as [|o r Ho _ IH]; [reflexivity|].
  cbn [map filter List.length].
  destruct Ho as [-> | ->]; cbn [String.eqb Ascii.eqb Bool.eqb filter List.length] in *; lia.
Qed.

Lemma np_where_status (mask : list bool) :
  Forall (fun o => o = Some "Ativo" \/ o = Some "Desligado")
         (np_where mask "Desligado" "Ativo").
Proof.
  unfold np_where. apply Forall_forall. intros o H. apply in_map_iff in H.
  destruct H as [[] [<- _]]; [now right|now left].
Qed.

Lemma repeat_ativo_status (n : nat) :
  Forall (fun o => o = Some "Ativo" \/ o = Some "Desligado") (repeat (Some "Ativo") n).
Proof. apply Forall_forall. intros o H. apply repeat_spec in H. now left. Qed.

Section Counts.

Variable pd : list (option string) -> string -> option timestamp.
Variable pn : string -> option float.
Variable ec : float -> option timestamp.

Lemma prepared_status_values (today : timestamp) (raw : DataFrame) :
  wf raw ->
  exists sts,
    prepared_col pd pn ec today raw "Status" = Some (ObjCol sts) /\
    List.length sts = nrows raw /\
    Forall (fun o => o = Some "Ativo" \/ o = Some "Desligado") sts.
Proof.
  intros W. destruct (prepared_status_col pd pn ec today W) as [sts [E L]].
  exists sts. split; [exact E|]. split; [exact L|].
  rewrite prepared_status in E.
  destruct (trimmed raw "Data de Demissao"); inversion E;
    [apply np_where_status|apply repeat_ativo_status].
Qed.

(** X3: on a prepared table the active headcount and the terminated count
    are two counts that add up to the number of records: every record is
    counted once, as active or as terminated. *)
Theorem X3_headcount_plus_desligados (today : timestamp) (raw d : DataFrame) :
  wf raw ->
  prepare_df pd pn ec today raw = Ok d ->
  exists a b,
    k_headcount_ativo d = Ok (PInt a) /\
    k_desligados d = Ok (PInt b) /\
    0 <= a /\ 0 <= b /\
    a + b = Z.of_nat (nrows d).
Proof.
  intros W H. destruct (@prepare_df_get pd pn ec today raw d (proj1 W) H) as [N G].
  destruct (prepared_status_values today W) as [sts [E [L F]]].
  rewrite <- G in E.
  exists (count_true (eq_scalar (ObjCol sts) "Ativo")).
  exists (count_true (eq_scalar (ObjCol sts) "Desligado")).
  split; [unfold k_headcount_ativo, getitem; now rewrite E|].
  split; [unfold k_desligados, getitem; now rewrite E|].
  split; [apply count_true_nonneg|]. split; [apply count_true_nonneg|].
  rewrite count_status_split by assumption. now rewrite L, N.
Qed.

End Counts.

Lemma X3_headcount_plus_desligados_witness :
  wf Samples.staff /\
  Reference.prepare Reference.a_today Samples.staff = Ok Samples.staff_prepared /\
  exists a b,
    k_headcount_ativo Samples.staff_prepared = Ok (PInt a) /\
    k_desligados Samples.staff_prepared = Ok (PInt b) /\
    0 <= a /\ 0 <= b /\
    a + b = Z.of_nat (nrows Samples.staff_prepared).
Proof.
  assert (W : wf Samples.staff) by wf_table.
  assert (R : Reference.prepare Reference.a_today Samples.staff = Ok Samples.staff_prepared)
    by (vm_compute; reflexivity).
  split; [exact W|]. split; [exact R|].
  exact (@X3_headcount_plus_desligados (fun _ => Reference.parse_dmy)
           Reference.parse_decimal Reference.trunc_cast
           Reference.a_today Samples.staff Samples.staff_prepared W R).
Defined.

Lemma map_const_repeat {A B : Type} (f : A -> B) (b : B) (l : list A) :
  Forall (fun x => f x = b) l -> map f l = repeat b (List.length l).
Proof. induction 1 as [|x r Hx _ IH]; cbn; [reflexivity|]. now rewrite Hx, IH. Qed.

Lemma count_all_ativo (n : nat) :
  count_true (eq_scalar (ObjCol (repeat (Some "Ativo") n)) "Ativo") = Z.of_nat n /\
  count_true (eq_scalar (ObjCol (repeat (Some "Ativo") n)) "Desligado") = 0.
Proof.
  unfold count_true, eq_scalar. induction n as [|n [IH1 IH2]]; [split; reflexivity|].
  cbn [repeat map]. cbn [String.eqb Ascii.eqb Bool.eqb filter List.length].
  split; [lia|exact IH2].
Qed.

Section Indicators.

Variable pd : list (option string) -> string -> option timestamp.
Variable pn : string -> option float.
Variable ec : float -> option timestamp.


(** X5: when the raw table has a birth-date column, the average age of the
    prepared table never raises and is a float, not the integer 0 of the
    missing-column case; it is NaN when no birth date could be read, which
    includes the table without records. *)
Theorem X5_idade_media_with_birth_column (today : timestamp) (raw d : DataFrame) :
  wf raw ->
  prepare_df pd pn ec today raw = Ok d ->
  df_get raw "Data de Nascimento" <> None ->
  exists births,
    df_get d "Data de Nascimento" = Some (DateCol births) /\
    (exists m, k_idade_media d = Ok (PFloat m)) /\
    (Forall (fun o => o = None) births -> k_idade_media d = Ok (PFloat NaN)).
Proof.
  intros W H E. destruct (@prepare_df_get pd pn ec today raw d (proj1 W) H) as [_ G].
  destruct (df_get raw "Data de Nascimento") as [v|] eqn:Ev; [|congruence].
  exists (to_datetime pd ec (trim_col v)).
  assert (Gi : df_get d "Idade" =
               Some (int_series (idade_values (deltas today (to_datetime pd ec (trim_col v)))))).
  { rewrite G, prepared_idade. unfold trimmed. now rewrite Ev. }
  split; [rewrite G, prepared_nascimento; unfold trimmed; now rewrite Ev|].
  unfold k_idade_media. rewrite Gi. unfold int_series, mean_float. split.
  - destruct (filter _ _); cbn [bind]; eauto.
  - intros F. unfold idade_values, deltas. rewrite !map_map.
    rewrite (@map_const_repeat _ _ _ NaN) by
      (eapply Forall_impl; [|exact F]; intros o ->; reflexivity).
    assert (Fl : forall n, filter (fun x => negb (isnan x)) (repeat NaN n) = []).
    { intros n. induction n as [|n IH]; [reflexivity|exact IH]. }
    now rewrite Fl.
Qed.

(** X7: a money column that the reader typed as numbers goes through the
    preparer cell by cell: a number stays the number it was, a missing
    value (NaN) becomes 0.0. *)
Theorem X7_numeric_money_kept
  (today : timestamp) (raw d : DataFrame) (m : string) (l : list float) :
  wf raw ->
  prepare_df pd pn ec today raw = Ok d ->
  In m MONEY_COLS ->
  df_get raw m = Some (NumCol l) ->
  df_get d m = Some (NumCol (map (fun x => if isnan x then 0%float else x) l)).
Proof.
  intros W H Hm E. destruct (@prepare_df_get pd pn ec today raw d (proj1 W) H) as [_ G].
  rewrite G, prepared_money by assumption. unfold trimmed. rewrite E. reflexivity.
Qed.

(** X8: when the termination-date column of the raw table is numeric and
    entirely blank (the reader types an empty column float64, all NaN),
    every record of the prepared table is "Ativo": the active headcount is
    the number of records and the terminated count is 0. *)
Theorem X8_blank_demissao_all_ativo
  (today : timestamp) (raw d : DataFrame) (l : list float) :
  wf raw ->
  prepare_df pd pn ec today raw = Ok d ->
  df_get raw "Data de Demissao" = Some (NumCol l) ->
  Forall (fun x => isnan x = true) l ->
  df_get d "Status" = Some (ObjCol (repeat (Some "Ativo") (nrows raw))) /\
  k_headcount_ativo d = Ok (PInt (Z.of_nat (nrows raw))) /\
  k_desligados d = Ok (PInt 0).
Proof.
  intros W H E F. destruct (@prepare_df_get pd pn ec today raw d (proj1 W) H) as [_ G].
  assert (Gs : df_get d "Status" = Some (ObjCol (repeat (Some "Ativo") (nrows raw)))).
  { rewrite G, prepared_status. unfold trimmed. rewrite E.
    cbn [option_map trim_col to_datetime notna]. unfold np_where. rewrite !map_map.
    rewrite (@map_const_repeat _ _ _ (Some "Ativo")).
    - do 3 f_equal. apply (wf_col_len "Data de Demissao" W E).
    - eapply Forall_impl; [|exact F]. intros x Hx. cbn beta. now rewrite Hx. }
  split; [exact Gs|].
  destruct (count_all_ativo (nrows raw)) as [C1 C2].
  split; [unfold k_headcount_ativo, getitem; now rewrite Gs; cbn [bind]; rewrite C1|].
  unfold k_desligados, getitem. now rewrite Gs; cbn [bind]; rewrite C2.
Qed.

(** X9: the preparer leaves the average rating as it was: when the rating
    column of the raw table is absent or not text-typed, the average rating
    of the prepared table is the average rating of the raw table. *)
Theorem X9_avaliacao_media_kept (today : timestamp) (raw d : DataFrame) :
  wf raw ->
  prepare_df pd pn ec today raw = Ok d ->
  (forall v, df_get raw "Avaliação do Funcionário" = Some v -> is_object v = false) ->
  k_avaliacao_media d = k_avaliacao_media raw.
Proof.
  intros W H Hv. destruct (@prepare_df_get pd pn ec today raw d (proj1 W) H) as [_ G].
  unfold k_avaliacao_media. rewrite G, prepared_other.
  - unfold trimmed. destruct (df_get raw "Avaliação do Funcionário") as [v|]; [|reflexivity].
    specialize (Hv v eq_refl). destruct v; [discriminate Hv|reflexivity|reflexivity].
  - cbn; intros X; repeat (destruct X as [X|X]; [discriminate X|]); exact X.
  - cbn; intros X; repeat (destruct X as [X|X]; [discriminate X|]); exact X.
Qed.

End Indicators.

(** Runs the preparer on a sample and names the table it returns. *)
Ltac run_prepare T d R :=
  let r := eval vm_compute in (Reference.prepare Reference.a_today T) in
  match r with
  | Ok ?d0 =>
      pose (d := d0);
      assert (R : Reference.prepare Reference.a_today T = Ok d)
        by (vm_compute; reflexivity)
  end.


Lemma X5_idade_media_with_birth_column_witness :
  wf Samples.staff /\
  Reference.prepare Reference.a_today Samples.staff = Ok Samples.staff_prepared /\
  df_get Samples.staff "Data de Nascimento" <> None /\
  exists births,
    df_get Samples.staff_prepared "Data de Nascimento" = Some (DateCol births) /\
    (exists m, k_idade_media Samples.staff_prepared = Ok (PFloat m)) /\
    (Forall (fun o => o = None) births ->
     k_idade_media Samples.staff_prepared = Ok (PFloat NaN)).
Proof.
  assert (W : wf Samples.staff) by wf_table.
  assert (R : Reference.prepare Reference.a_today Samples.staff = Ok Samples.staff_prepared)
    by (vm_compute; reflexivity).
  assert (N : df_get Samples.staff "Data de Nascimento" <> None)
    by (vm_compute; discriminate).
  split; [exact W|]. split; [exact R|]. split; [exact N|].
  exact (@X5_idade_media_with_birth_column (fun _ => Reference.parse_dmy)
           Reference.parse_decimal Reference.trunc_cast
           Reference.a_today Samples.staff Samples.staff_prepared W R N).
Defined.

Lemma X7_numeric_money_kept_witness :
  wf typed_sheet /\
  In "Salario Base" MONEY_COLS /\
  df_get typed_sheet "Salario Base" = Some (NumCol [1200%float; NaN]) /\
  exists d,
    Reference.prepare Reference.a_today typed_sheet = Ok d /\
    df_get d "Salario Base" =
    Some (NumCol (map (fun x => if isnan x then 0%float else x) [1200%float; NaN])).
Proof.
  assert (W : wf typed_sheet) by wf_table.
  assert (M : In "Salario Base" MONEY_COLS) by (cbn; tauto).
  assert (E : df_get typed_sheet "Salario Base" = Some (NumCol [1200%float; NaN]))
    by reflexivity.
  split; [exact W|]. split; [exact M|]. split; [exact E|].
  run_prepare typed_sheet d R. exists d. split; [exact R|].
  exact (@X7_numeric_money_kept (fun _ => Reference.parse_dmy)
           Reference.parse_decimal Reference.trunc_cast
           Reference.a_today typed_sheet d "Salario Base" _ W R M E).
Defined.

Lemma X8_blank_demissao_all_ativo_witness :
  wf typed_sheet /\
  df_get typed_sheet "Data de Demissao" = Some (NumCol [NaN; NaN]) /\
  Forall (fun x => isnan x = true) [NaN; NaN] /\
  exists d,
    Reference.prepare Reference.a_today typed_sheet = Ok d /\
    df_get d "Status" = Some (ObjCol (repeat (Some "Ativo") (nrows typed_sheet))) /\
    k_headcount_ativo d = Ok (PInt (Z.of_nat (nrows typed_sheet))) /\
    k_desligados d = Ok (PInt 0).
Proof.
  assert (W : wf typed_sheet) by wf_table.
  assert (E : df_get typed_sheet "Data de Demissao" = Some (NumCol [NaN; NaN]))
    by reflexivity.
  assert (F : Forall (fun x => isnan x = true) [NaN; NaN])
    by (repeat constructor).
  split; [exact W|]. split; [exact E|]. split; [exact F|].
  run_prepare typed_sheet d R. exists d. split; [exact R|].
  exact (@X8_blank_demissao_all_ativo (fun _ => Reference.parse_dmy)
           Reference.parse_decimal Reference.trunc_cast
           Reference.a_today typed_sheet d _ W R E F).
Defined.

Lemma X9_avaliacao_media_kept_witness :
  wf typed_sheet /\
  (forall v, df_get typed_sheet "Avaliação do Funcionário" = Some v ->
             is_object v = false) /\
  exists d,
    Reference.prepare Reference.a_today typed_sheet = Ok d /\
    k_avaliacao_media d = k_avaliacao_media typed_sheet.
Proof.
  assert (W : wf typed_sheet) by wf_table.
  assert (V : forall v, df_get typed_sheet "Avaliação do Funcionário" = Some v ->
                        is_object v = false)
    by (intros v E; inversion E; reflexivity).
  split; [exact W|]. split; [exact V|].
  run_prepare typed_sheet d R. exists d. split; [exact R|].
  exact (@X9_avaliacao_media_kept (fun _ => Reference.parse_dmy)
           Reference.parse_decimal Reference.trunc_cast
           Reference.a_today typed_sheet d W R V).
Defined.

(** ** Missing columns *)

(** X6: the four count and sum indicators are not tolerant of a missing
    column: the two counts raise KeyError exactly on a table without a
    Status column, the payroll exactly on a table without Status or without
    the base salary, the total cost exactly on a table without Status or
    without the monthly cost. Only the two averages return the integer 0
    when their column is missing. *)
Theorem X6_missing_columns (d : DataFrame) :
  (k_headcount_ativo d = Raise KeyError <-> df_get d "Status" = None) /\
  (k_desligados d = Raise KeyError <-> df_get d "Status" = None) /\
  (k_folha d = Raise KeyError <->
   df_get d "Status" = None \/ df_get d "Salario Base" = None) /\
  (k_custo_total d = Raise KeyError <->
   df_get d "Status" = None \/ df_get d "Custo Total Mensal" = None) /\
  (df_get d "Idade" = None <-> k_idade_media d = Ok (PInt 0)) /\
  (df_get d "Avaliação do Funcionário" = None <-> k_avaliacao_media d = Ok (PInt 0)).
Proof.
  unfold k_headcount_ativo, k_desligados, k_folha, k_custo_total,
    k_idade_media, k_avaliacao_media, getitem.
  destruct (df_get d "Status") as [st|]; cbn [bind].
  - split; [split; [discriminate|discriminate]|].
    split; [split; [discriminate|discriminate]|].
    split; [|split; [|split]].
    + destruct (df_get d "Salario Base") as [[[|x l]|l|l]|]; cbn [bind];
        (split; [|intros [X|X]; try discriminate X; reflexivity]);
        unfold loc, series_sum; try (destruct (select _ _)); cbn [bind];
        intros X; try discriminate X; now right.
    + destruct (df_get d "Custo Total Mensal") as [[[|x l]|l|l]|]; cbn [bind];
        (split; [|intros [X|X]; try discriminate X; reflexivity]);
        unfold loc, series_sum; try (destruct (select _ _)); cbn [bind];
        intros X; try discriminate X; now right.
    + destruct (df_get d "Idade") as [c|]; [|split; reflexivity].
      split; [discriminate|]. destruct (mean_float c); cbn [bind]; discriminate.
    + destruct (df_get d "Avaliação do Funcionário") as [c|]; [|split; reflexivity].
      split; [discriminate|]. destruct (mean_float c); cbn [bind]; discriminate.
  - split; [split; reflexivity|]. split; [split; reflexivity|].
    split; [split; [now left|reflexivity]|].
    split; [split; [now left|reflexivity]|].
    split.
    + destruct (df_get d "Idade") as [c|]; [|split; reflexivity].
      split; [discriminate|]. destruct (mean_float c); cbn [bind]; discriminate.
    + destruct (df_get d "Avaliação do Funcionário") as [c|]; [|split; reflexivity].
      split; [discriminate|]. destruct (mean_float c); cbn [bind]; discriminate.
Qed.

Section NoDates.

Variable pd : list (option string) -> string -> option timestamp.
Variable pn : string -> option float.
Variable ec : float -> option timestamp.

(** X10: a derived date column is made only from its source column: when
    the raw table has neither a birth-date column nor an age column, the
    prepared table has no age column and the average age is the integer 0;
    when it has neither a hire-date column nor a tenure column, the prepared
    table has no tenure column. *)
Theorem X10_no_source_no_derived (today : timestamp) (raw d : DataFrame) :
  wf raw ->
  prepare_df pd pn ec today raw = Ok d ->
  (df_get raw "Data de Nascimento" = None -> df_get raw "Idade" = None ->
   df_get d "Idade" = None /\ k_idade_media d = Ok (PInt 0)) /\
  (df_get raw "Data de Contratacao" = None ->
   df_get raw "Tempo de Casa (meses)" = None ->
   df_get d "Tempo de Casa (meses)" = None).
Proof.
  intros W H. destruct (@prepare_df_get pd pn ec today raw d (proj1 W) H) as [_ G].
  split.
  - intros E1 E2.
    assert (Gi : df_get d "Idade" = None).
    { rewrite G, prepared_idade. unfold trimmed. now rewrite E1, E2. }
    split; [exact Gi|]. unfold k_idade_media. now rewrite Gi.
  - intros E1 E2. rewrite G, prepared_tempo. unfold trimmed. now rewrite E1, E2.
Qed.

End NoDates.

Lemma X10_no_source_no_derived_witness :
  wf typed_sheet /\
  exists d,
    Reference.prepare Reference.a_today typed_sheet = Ok d /\
    (df_get typed_sheet "Data de Nascimento" = None ->
     df_get typed_sheet "Idade" = None ->
     df_get d "Idade" = None /\ k_idade_media d = Ok (PInt 0)) /\
    (df_get typed_sheet "Data de Contratacao" = None ->
     df_get typed_sheet "Tempo de Casa (meses)" = None ->
     df_get d "Tempo de Casa (meses)" = None).
Proof.
  assert (W : wf typed_sheet) by wf_table.
  split; [exact W|].
  run_prepare typed_sheet d R. exists d. split; [exact R|].
  exact (@X10_no_source_no_derived (fun _ => Reference.parse_dmy)
           Reference.parse_decimal Reference.trunc_cast
           Reference.a_today typed_sheet d W R).
Defined.

(** ** Line 98: the currency text *)

Lemma all_chars_app (p : ascii -> bool) (s t : string) :
  all_chars p (s ++ t) = all_chars p s && all_chars p t.
Proof.
  induction s as [|c r IH]; [reflexivity|]. cbn. now rewrite IH, andb_assoc.
Qed.

Lemma all_chars_impl (p q : ascii -> bool) (s : string) :
  (forall c, p c = true -> q c = true) ->
  all_chars p s = true -> all_chars q s = true.
Proof.
  intros Hpq. induction s as [|c r IH]; [reflexivity|]. cbn.
  intros H. apply andb_true_iff in H. destruct H as [Hc Hr].
  now rewrite (Hpq c Hc), IH.
Qed.

Lemma swap_separators_app (s t : string) :
  swap_separators (s ++ t) = swap_separators s ++ swap_separators t.
Proof. induction s as [|c r IH]; [reflexivity|]. cbn. now rewrite IH. Qed.

(** The three replacements of line 98, one character at a time. *)
Lemma replace_chain_char (c : ascii) :
  not_X c = true ->
  (let c1 := if Ascii.eqb c "," then "X"%char else c in
   let c2 := if Ascii.eqb c1 "." then ","%char else c1 in
   if Ascii.eqb c2 "X" then "."%char else c2) = swap_char c.
Proof.
  unfold not_X, swap_char. cbn zeta.
  destruct (Ascii.eqb_spec c ",") as [->|N1]; [reflexivity|].
  destruct (Ascii.eqb_spec c ".") as [->|N2]; [reflexivity|].
  intros H. apply negb_true_iff in H. now rewrite H.
Qed.

Lemma replace_chain (s : string) :
  all_chars not_X s = true ->
  str_replace "X" "." (str_replace "." "," (str_replace "," "X" s)) = swap_separators s.
Proof.
  induction s as [|c r IH]; [reflexivity|]. cbn [all_chars]. intros H.
  apply andb_true_iff in H. destruct H as [Hc Hr].
  cbn [str_replace swap_separators]. rewrite (IH Hr). f_equal.
  exact (replace_chain_char c Hc).
Qed.

Lemma digits_of_uint (d : Decimal.uint) :
  all_chars PyStr.is_digit (NilEmpty.string_of_uint d) = true.
Proof. induction d; cbn [NilEmpty.string_of_uint all_chars]; try rewrite IHd; reflexivity. Qed.

Lemma decimal_digits (n : N) : all_chars PyStr.is_digit (decimal n) = true.
Proof.
  unfold decimal, NilZero.string_of_uint.
  destruct (N.to_uint n) eqn:E; try reflexivity; rewrite <- E; apply digits_of_uint.
Qed.

Lemma decimal_not_empty (n : N) : decimal n <> "".
Proof.
  unfold decimal, NilZero.string_of_uint. destruct (N.to_uint n); discriminate.
Qed.

Lemma group3_chars (s : string) :
  all_chars PyStr.is_digit s = true -> all_chars digit_or_comma (group3 s) = true.
Proof.
  induction s as [|c r IH]; [reflexivity|]. cbn [all_chars group3]. intros H.
  apply andb_true_iff in H. destruct H as [Hc Hr].
  unfold digit_or_comma at 1. rewrite Hc. cbn [orb andb].
  destruct (_ && _); [cbn [all_chars]|]; now rewrite IH.
Qed.

Lemma group3_not_empty (s : string) : s <> "" -> group3 s <> "".
Proof. destruct s; [congruence|discriminate]. Qed.

Lemma digit_char (n : nat) :
  (n <= 9)%nat -> PyStr.is_digit (ascii_of_nat (48 + n)) = true.
Proof.
  intros H. do 10 (destruct n as [|n]; [reflexivity|]). lia.
Qed.

Lemma two_digits_shape (k : Z) :
  0 <= k < 100 ->
  exists d1 d2, two_digits k = String d1 (String d2 "") /\
                PyStr.is_digit d1 = true /\ PyStr.is_digit d2 = true.
Proof.
  intros H. unfold two_digits. do 2 eexists. split; [reflexivity|].
  split; apply digit_char.
  - assert (U : k / 10 <= 9)
      by (assert (k / 10 < 10) by (apply Z.div_lt_upper_bound; lia); lia).
    assert (L : 0 <= k / 10) by (apply Z.div_pos; lia).
    revert U L. generalize (k / 10). intros q U L.
    apply Nat2Z.inj_le. rewrite Z2Nat.id by exact L. exact U.
  - assert (B : 0 <= k mod 10 < 10) by (apply Z.mod_pos_bound; lia).
    revert B. generalize (k mod 10). intros q B.
    apply Nat2Z.inj_le. rewrite Z2Nat.id by apply B. cbn. lia.
Qed.

Lemma swap_digits (s : string) :
  all_chars PyStr.is_digit s = true -> swap_separators s = s.
Proof.
  induction s as [|c r IH]; [reflexivity|]. cbn [all_chars swap_separators].
  intros H. apply andb_true_iff in H. destruct H as [Hc Hr]. rewrite (IH Hr).
  f_equal. unfold swap_char.
  destruct (Ascii.eqb_spec c ",") as [->|_]; [discriminate Hc|].
  destruct (Ascii.eqb_spec c ".") as [->|_]; [discriminate Hc|reflexivity].
Qed.

Lemma swap_grouped (s : string) :
  all_chars digit_or_comma s = true ->
  all_chars digit_or_dot (swap_separators s) = true.
Proof.
  induction s as [|c r IH]; [reflexivity|]. cbn [all_chars swap_separators].
  intros H. apply andb_true_iff in H. destruct H as [Hc Hr]. rewrite (IH Hr).
  rewrite andb_true_r. unfold swap_char, digit_or_dot, digit_or_comma in *.
  destruct (Ascii.eqb_spec c ",") as [->|_]; [reflexivity|].
  rewrite orb_false_r in Hc.
  destruct (Ascii.eqb_spec c ".") as [->|_]; [discriminate Hc|]. now rewrite Hc.
Qed.

Lemma digit_not_X (c : ascii) : PyStr.is_digit c = true -> not_X c = true.
Proof.
  unfold not_X. destruct (Ascii.eqb_spec c "X") as [->|_]; [discriminate|reflexivity].
Qed.

Lemma grouped_not_X (c : ascii) : digit_or_comma c = true -> not_X c = true.
Proof.
  unfold not_X. destruct (Ascii.eqb_spec c "X") as [->|_]; [discriminate|reflexivity].
Qed.

Lemma cents_mod_bound (c : Z) : 0 <= c mod 100 < 100.
Proof. apply Z.mod_pos_bound. lia. Qed.

Lemma format_2f_not_X (x : float) : all_chars not_X (format_2f x) = true.
Proof.
  unfold format_2f. destruct (Prim2SF x) as [[]|[]| |sg m e]; try reflexivity.
  cbn zeta. rewrite !all_chars_app.
  destruct (two_digits_shape (cents_mod_bound (cents_of m e))) as [d1 [d2 [E [H1 H2]]]].
  rewrite E. cbn [all_chars]. rewrite (digit_not_X d1 H1), (digit_not_X d2 H2).
  rewrite (all_chars_impl digit_or_comma not_X _ grouped_not_X
             (group3_chars _ (decimal_digits _))).
  destruct sg; reflexivity.
Qed.

Lemma brl_number (x : float) :
  brl (Number x) = "R$ " ++ swap_separators (format_2f x).
Proof.
  unfold brl, fstring_2f. rewrite replace_chain.
  - now rewrite swap_separators_app.
  - rewrite all_chars_app. now rewrite format_2f_not_X.
Qed.

(** X11: [brl] exchanges the separators of the formatted amount: the text it
    returns for a float is "R$ " followed by the [,.2f] text of the float
    with every comma turned into a dot and every dot into a comma; the
    placeholder X of the three replacements never clashes with the amount.
    On an object that the format refuses it returns "R$ 0,00". *)
Theorem X11_brl_swaps_separators :
  (forall x, brl (Number x) = "R$ " ++ swap_separators (format_2f x)) /\
  brl NotANumber = "R$ 0,00".
Proof. split; [exact brl_number|reflexivity]. Qed.

(** X12: the text [brl] returns for a float is "R$ nan", "R$ inf" or
    "R$ -inf", or else it is "R$ ", an optional minus sign, a non-empty run
    of digits and dots, a comma and exactly two digits. *)
Theorem X12_brl_shape (x : float) :
  brl (Number x) = "R$ nan" \/ brl (Number x) = "R$ inf" \/
  brl (Number x) = "R$ -inf" \/
  exists sign body d1 d2,
    brl (Number x) = "R$ " ++ sign ++ body ++ "," ++ String d1 (String d2 "") /\
    (sign = "" \/ sign = "-") /\
    body <> "" /\
    all_chars digit_or_dot body = true /\
    PyStr.is_digit d1 = true /\ PyStr.is_digit d2 = true.
Proof.
  rewrite brl_number. unfold format_2f.
  destruct (Prim2SF x) as [sg|sg| |sg m e].
  - do 3 right. exists (if sg then "-" else ""), "0", "0"%char, "0"%char.
    split; [destruct sg; reflexivity|]. split; [destruct sg; auto|].
    split; [discriminate|]. repeat split.
  - destruct sg; [right; right; left|right; left]; reflexivity.
  - left. reflexivity.
  - do 3 right. cbn zeta.
    destruct (two_digits_shape (cents_mod_bound (cents_of m e))) as [d1 [d2 [E [H1 H2]]]].
    exists (if sg then "-" else "").
    exists (swap_separators (group3 (decimal (Z.to_N (cents_of m e / 100))))).
    exists d1, d2. rewrite E, !swap_separators_app.
    split.
    + assert (Sg : swap_separators (if sg then "-" else "") = (if sg then "-" else ""))
        by (destruct sg; reflexivity).
      assert (Sd : swap_separators (String d1 (String d2 "")) = String d1 (String d2 ""))
        by (apply swap_digits; cbn [all_chars]; now rewrite H1, H2).
      rewrite Sg, Sd. reflexivity.
    + split; [destruct sg; auto|]. split; [|split; [|split; assumption]].
      * pose proof (group3_not_empty (decimal_not_empty (Z.to_N (cents_of m e / 100)))) as NE.
        destruct (group3 _); [congruence|discriminate].
      * apply swap_grouped, group3_chars, decimal_digits.
Qed.

Example brl_samples :
  brl (Number 5000%float) = "R$ 5.000,00" /\
  brl (Number 1234567.5%float) = "R$ 1.234.567,50" /\
  brl (Number 0.125%float) = "R$ 0,12" /\
  brl (Number (-1234.5)%float) = "R$ -1.234,50" /\
  brl (Number 0%float) = brl NotANumber.
Proof. vm_compute. repeat split. Qed.

(** ** Two invariants of the prepared table *)

Section Invariants.

Variable pd : list (option string) -> string -> option timestamp.
Variable pn : string -> option float.
Variable ec : float -> option timestamp.

(** X13: in the prepared table each of the five money columns is numeric,
    as long as the table, and holds no missing value. *)
Theorem X13_money_columns_filled
  (today : timestamp) (raw d : DataFrame) (m : string) :
  wf raw ->
  prepare_df pd pn ec today raw = Ok d ->
  In m MONEY_COLS ->
  exists l,
    df_get d m = Some (NumCol l) /\
    List.length l = nrows d /\
    Forall (fun x => isnan x = false) l.
Proof.
  intros W H Hm. destruct (@prepare_df_get pd pn ec today raw d (proj1 W) H) as [N G].
  exists (money_values pn (nrows raw) (trimmed raw m)).
  split; [rewrite G; now apply prepared_money|].
  split; [rewrite N; now apply length_money_values|apply money_values_no_nan].
Qed.

(** X14: the sex column is stripped before it is canonicalised: a text cell
    of the raw column comes out as the sex code of its stripped text, so a
    padded long spelling is still recognised; a missing cell of a text
    column, which the trim step turned into the text "nan", comes out as
    the text "NAN". *)
Theorem X14_sexo_stripped_then_coded
  (today : timestamp) (raw d : DataFrame) (l : list (option string)) :
  wf raw ->
  prepare_df pd pn ec today raw = Ok d ->
  df_get raw "Sexo" = Some (ObjCol l) ->
  exists l',
    df_get d "Sexo" = Some (ObjCol l') /\
    List.length l' = List.length l /\
    (forall i s, nth_error l i = Some (Some s) ->
                 nth_error l' i = Some (Some (sexo_text (PyStr.strip s)))) /\
    (forall i, nth_error l i = Some None -> nth_error l' i = Some (Some "NAN")).
Proof.
  intros W H E. destruct (@prepare_df_get pd pn ec today raw d (proj1 W) H) as [_ G].
  exists (map (option_map sexo_text) (str_strip (astype_str l))).
  split.
  - rewrite G, prepared_sexo. unfold trimmed. rewrite E. cbn [option_map trim_col].
    now rewrite replace_upper.
  - unfold str_strip, astype_str. rewrite !map_map.
    split; [now rewrite length_map|]. split.
    + intros i s Hi. now rewrite nth_error_map, Hi.
    + intros i Hi. now rewrite nth_error_map, Hi.
Qed.

End Invariants.

Lemma X13_money_columns_filled_witness :
  wf Samples.staff /\
  Reference.prepare Reference.a_today Samples.staff = Ok Samples.staff_prepared /\
  In "Impostos" MONEY_COLS /\
  exists l,
    df_get Samples.staff_prepared "Impostos" = Some (NumCol l) /\
    List.length l = nrows Samples.staff_prepared /\
    Forall (fun x => isnan x = false) l.
Proof.
  assert (W : wf Samples.staff) by wf_table.
  assert (R : Reference.prepare Reference.a_today Samples.staff = Ok Samples.staff_prepared)
    by (vm_compute; reflexivity).
  assert (M : In "Impostos" MONEY_COLS) by (cbn; tauto).
  split; [exact W|]. split; [exact R|]. split; [exact M|].
  exact (@X13_money_columns_filled (fun _ => Reference.parse_dmy)
           Reference.parse_decimal Reference.trunc_cast
           Reference.a_today Samples.staff Samples.staff_prepared "Impostos" W R M).
Defined.

Lemma X14_sexo_stripped_then_coded_witness :
  wf Samples.staff /\
  Reference.prepare Reference.a_today Samples.staff = Ok Samples.staff_prepared /\
  df_get Samples.staff "Sexo" =
  Some (ObjCol [Some "feminino"; Some "Outro"; Some " masculino "]) /\
  exists l',
    df_get Samples.staff_prepared "Sexo" = Some (ObjCol l') /\
    List.length l' = 3%nat /\
    (forall i s,
       nth_error [Some "feminino"; Some "Outro"; Some " masculino "] i = Some (Some s) ->
       nth_error l' i = Some (Some (sexo_text (PyStr.strip s)))) /\
    (forall i,
       nth_error [Some "feminino"; Some "Outro"; Some " masculino "] i = Some None ->
       nth_error l' i = Some (Some "NAN")).
Proof.
  assert (W : wf Samples.staff) by wf_table.
  assert (R : Reference.prepare Reference.a_today Samples.staff = Ok Samples.staff_prepared)
    by (vm_compute; reflexivity).
  assert (E : df_get Samples.staff "Sexo" =
              Some (ObjCol [Some "feminino"; Some "Outro"; Some " masculino "]))
    by reflexivity.
  split; [exact W|]. split; [exact R|]. split; [exact E|].
  exact (@X14_sexo_stripped_then_coded (fun _ => Reference.parse_dmy)
           Reference.parse_decimal Reference.trunc_cast
           Reference.a_today Samples.staff Samples.staff_prepared _ W R E).
Defined.
